(** * Return-policy chatbot: a shallow embedding of the backend

    The backend has two programs.  [processPolicy.js] is the offline ingestion
    script (load the policy PDF, split it, embed and upload it) and [index.js]
    is the HTTP service (bootstrap of the AI components, the retrieval chain,
    the routes [GET /] and [POST /query]).

    Both are sequential orchestration of library calls.  The embedding keeps
    the control flow of the two files (environment check, [try]/[catch],
    [process.exit], the order of the calls and of the console output) and
    takes the answers of the outside world (PDF loader, vector store,
    retriever, language model) as oracles. *)

From Stdlib Require Import String Ascii List ZArith Lia Floats.
From stdpp Require Import base option list strings gmap pretty.

Open Scope string_scope.
#[local] Set Warnings "-register-all".

(** ** JavaScript values *)

Module Js.

(** What [JSON.parse] and [process.env] can hand to the program.  Numbers are
    IEEE doubles, as in JavaScript. *)
Inductive JsValue : Type :=
| JUndefined
| JNull
| JBool (b : bool)
| JNumber (x : float)
| JString (s : string)
| JArray (items : list JsValue)
| JObject (fields : list (string * JsValue)).

(** JavaScript's ToBoolean: what [!v] and [v ? a : b] and [v || d] test. *)
Definition truthy (v : JsValue) : bool :=
  match v with
  | JUndefined | JNull => false
  | JBool b => b
  | JNumber x => negb (PrimFloat.is_zero x || PrimFloat.is_nan x)
  | JString EmptyString => false
  | JString (String _ _) => true
  | JArray _ | JObject _ => true
  end.

(** Property read [o.key] on a parsed object: [undefined] when absent. *)
Fixpoint get_property (key : string) (fields : list (string * JsValue)) : JsValue :=
  match fields with
  | [] => JUndefined
  | (k, v) :: rest => if String.eqb k key then v else get_property key rest
  end.

(** [process.env]: every value present is a string. *)
Definition env_get (env : gmap string string) (key : string) : JsValue :=
  match env !! key with
  | Some s => JString s
  | None => JUndefined
  end.

(** An [Error] object; only its [message] is inspected by the program. *)
Record JsError : Type := mkError { message : string }.

(** [hay.includes(needle)] *)
Fixpoint includes (needle hay : string) : bool :=
  String.prefix needle hay ||
  match hay with
  | EmptyString => false
  | String _ rest => includes needle rest
  end.

(** The answer of a call that may throw (or of a promise that may reject). *)
Inductive Result (A : Type) : Type :=
| Ok (a : A)
| Fail (e : JsError).
Arguments Ok {A} a.
Arguments Fail {A} e.

(** A double quote, for the messages that contain one. *)
Definition dq : string := String (ascii_of_nat 34) EmptyString.

(** A line break, for the template that spans lines. *)
Definition nl : string := String (ascii_of_nat 10) EmptyString.

End Js.
Export Js.

(** ** Objects of the libraries *)

Module Lib.

(** A LangChain [Document]: page text as a sequence of characters, and the
    index of the page it comes from. *)
Record Document : Type := mkDocument {
  pageContent : list ascii;
  page : nat
}.

Record SplitterConfig : Type := mkSplitter {
  chunkSize : nat;
  chunkOverlap : nat
}.

Record EmbeddingsConfig : Type := mkEmbeddings {
  emb_apiKey : JsValue;
  emb_modelName : string
}.

Record LLMConfig : Type := mkLLM {
  llm_apiKey : JsValue;
  llm_modelName : string;
  temperature : Z;
  maxRetries : Z
}.

(** The result of [createClient(url, key)]. *)
Record SupabaseClient : Type := mkClient {
  client_url : JsValue;
  client_key : JsValue
}.

Record VectorStoreConfig : Type := mkVectorStore {
  vs_embeddings : EmbeddingsConfig;
  client : SupabaseClient;
  tableName : string;
  queryName : string
}.

Record RetrieverConfig : Type := mkRetriever {
  ret_store : VectorStoreConfig;
  k : Z
}.

(** One saved round of the conversation: [saveContext({input}, {output})]. *)
Record Turn : Type := mkTurn {
  input : JsValue;
  output : string
}.

(** [BufferMemory]: its two options and the rounds saved so far. *)
Record BufferMemory : Type := mkMemory {
  memoryKey : string;
  returnMessages : bool;
  turns : list Turn
}.

(** The message objects a [BufferMemory] with [returnMessages] hands out. *)
Inductive Message : Type :=
| HumanMessage (content : JsValue)
| AIMessage (content : string).

(** A parsed prompt template: literal text and [{name}] slots. *)
Inductive Segment : Type :=
| Lit (text : string)
| Var (name : string).

(** Constructor and factory calls, with the arguments the program passes. *)
Inductive Construction : Type :=
| NewPDFLoader (path : string)
| NewTextSplitter (cfg : SplitterConfig)
| NewEmbeddings (cfg : EmbeddingsConfig)
| CreateClient (url key : JsValue)
| NewChatLLM (cfg : LLMConfig)
| NewVectorStore (cfg : VectorStoreConfig)
| AsRetriever (cfg : RetrieverConfig)
| NewBufferMemory (key : string) (messages : bool)
| NewPromptTemplate (template : list Segment)
| NewRunnableSequence.

(** Calls that reach the outside world. *)
Inductive Call : Type :=
| LoaderLoad (path : string)
| SplitDocuments (cfg : SplitterConfig) (docs : list Document)
| FromDocuments (docs : list Document) (cfg : VectorStoreConfig)
| RetrieverInvoke (query : JsValue)
| LLMInvoke (prompt : string).

Inductive Middleware : Type := Cors | ExpressJson.

(** Arguments of [console.log] and [console.error]. *)
Inductive LogArg : Type :=
| LText (s : string)
| LValue (v : JsValue)
| LError (e : JsError).

(** What a run does that can be observed from outside, in order. *)
Inductive Event : Type :=
| ConsoleLog (args : list LogArg)
| ConsoleError (args : list LogArg)
| New (c : Construction)
| Called (c : Call)
| AppUse (m : Middleware)
| AppGet (path : string)
| AppPost (path : string)
| AppListen (port : JsValue).

End Lib.
Export Lib.

(** ** Runs: state, console and calls, exceptions, [process.exit] *)

Module Run.

(** How a piece of program ends: it returns, it throws (an [async] function
    rejects), or the process is gone. *)
Inductive Outcome (A : Type) : Type :=
| Returned (a : A)
| Thrown (e : JsError)
| Exited (code : Z).
Arguments Returned {A} a.
Arguments Thrown {A} e.
Arguments Exited {A} code.

(** A computation over a store [S] that also emits events. *)
Definition M (S A : Type) : Type := S -> Outcome A * S * list Event.

Definition ret {S A} (a : A) : M S A := fun s => (Returned a, s, []).

Definition bind {S A B} (m : M S A) (f : A -> M S B) : M S B :=
  fun s =>
    match m s with
    | (Returned a, s1, t1) =>
        let '(o, s2, t2) := f a s1 in (o, s2, (t1 ++ t2)%list)
    | (Thrown e, s1, t1) => (Thrown e, s1, t1)
    | (Exited c, s1, t1) => (Exited c, s1, t1)
    end.

Definition throw {S A} (e : JsError) : M S A := fun s => (Thrown e, s, []).

(** [process.exit(code)]: nothing runs afterwards, no handler sees it. *)
Definition exit {S A} (code : Z) : M S A := fun s => (Exited code, s, []).

Definition emit {S} (ev : Event) : M S unit := fun s => (Returned tt, s, [ev]).

Definition get {S} : M S S := fun s => (Returned s, s, []).

Definition modify {S} (f : S -> S) : M S unit := fun s => (Returned tt, f s, []).

(** [try { m } catch (error) { h error }] *)
Definition try_catch {S A} (m : M S A) (h : JsError -> M S A) : M S A :=
  fun s =>
    match m s with
    | (Thrown e, s1, t1) =>
        let '(o, s2, t2) := h e s1 in (o, s2, (t1 ++ t2)%list)
    | r => r
    end.

Definition of_result {S A} (r : Result A) : M S A :=
  match r with
  | Ok a => ret a
  | Fail e => throw e
  end.

Definition outcome {S A} (r : Outcome A * S * list Event) : Outcome A := r.1.1.
Definition store {S A} (r : Outcome A * S * list Event) : S := r.1.2.
Definition events {S A} (r : Outcome A * S * list Event) : list Event := r.2.

(** The exit status of a script whose top level ended as [o]: the status given
    to [process.exit], 0 when the script ran to its end, 1 for an exception
    nobody caught. *)
Definition exit_status {A} (o : Outcome A) : Z :=
  match o with
  | Returned _ => 0
  | Thrown _ => 1
  | Exited c => c
  end.

End Run.
Export Run.

Notation "x <- m ;; k" := (bind m (fun x => k))
  (at level 100, m at next level, right associativity).
Notation "m ;; k" := (bind m (fun _ => k))
  (at level 100, right associativity).

Definition console_log {S} (args : list LogArg) : M S unit := emit (ConsoleLog args).
Definition console_error {S} (args : list LogArg) : M S unit := emit (ConsoleError args).

(** A constructor call: it throws when the library says so, and is recorded
    when it goes through. *)
Definition construct {S} (fails : Construction -> option JsError) (c : Construction) : M S unit :=
  match fails c with
  | Some e => throw e
  | None => emit (New c)
  end.

(** An awaited call: recorded when it is made, then it resolves or rejects. *)
Definition call {S A} (c : Call) (answer : Result A) : M S A :=
  emit (Called c) ;; of_result answer.

(** [v ? "Laddad" : "EJ LADAD"] *)
Definition loaded (v : JsValue) : LogArg :=
  LText (if truthy v then "Laddad" else "EJ LADAD").

(** ** The ingestion script, [processPolicy.js] *)

Module ProcessPolicy.

(** The world the script runs in: where it lives on disk, and what the
    libraries answer. *)
Record World : Type := mkWorld {
  dirname : string;
  path_join : string -> string -> string;
  ctor_fails : Construction -> option JsError;
  loader_load : string -> Result (list Document);
  splitDocuments : SplitterConfig -> list Document -> Result (list Document);
  fromDocuments : list Document -> VectorStoreConfig -> Result unit
}.

Definition missing_env_message : string :=
  "FEL: Saknar en eller flera nödvändiga miljövariabler (GOOGLE_API_KEY, SUPABASE_URL, SUPABASE_SERVICE_ROLE_KEY). Kontrollera din .env-fil.".

Definition upload_ok_message : string :=
  "Embeddings har laddats upp till Supabase framgångsrikt!".

Definition upload_failed_message : string :=
  "FEL vid uppladdning till Supabase:".

Definition done_message : string := "Processen är klar.".

(** The four hints printed for an error whose message mentions a dimension
    mismatch. *)
Definition dimension_hints : list Event :=
  [ ConsoleError [LText "Det verkar som att dimensionsstorleken för vektorn är felaktig i Supabase-tabellen."];
    ConsoleError [LText ("Kontrollera dimensionen för " +:+ dq +:+ "embedding-001" +:+ dq +:+ " (Googles embedding-modell).")];
    ConsoleError [LText "Du kan behöva ändra `VECTOR(1536)` i din `documents`-tabell SQL till rätt dimension (förmodligen 768)."];
    ConsoleError [LText ("Kolla Google Generative AI-dokumentationen för " +:+ dq +:+ "embedding-001" +:+ dq +:+ " för exakt dimension.")] ].

Fixpoint emit_all {S} (evs : list Event) : M S unit :=
  match evs with
  | [] => ret tt
  | ev :: rest => emit ev ;; emit_all rest
  end.

(** The handler of the [catch] around the upload (lines 82-98): print the
    error, print the hints when it is a dimension mismatch, and fall through. *)
Definition upload_catch (error : JsError) : M unit unit :=
  console_error [LText upload_failed_message; LError error] ;;
  if includes "vector dimension mismatch" (message error)
  then emit_all dimension_hints
  else ret tt.

(** The options of the [RecursiveCharacterTextSplitter] (lines 55-58). *)
Definition splitter : SplitterConfig := {| chunkSize := 1000; chunkOverlap := 200 |}.

(** [path.join(__dirname, "returpolicy.pdf")] (line 47). *)
Definition pdfPath (w : World) : string := path_join w (dirname w) "returpolicy.pdf".

(** The embeddings model of lines 66-69. *)
Definition embeddings (env : gmap string string) : EmbeddingsConfig :=
  {| emb_apiKey := env_get env "GOOGLE_API_KEY"; emb_modelName := "embedding-001" |}.

(** Where [SupabaseVectorStore.fromDocuments] writes (lines 73-80). *)
Definition target (env : gmap string string) : VectorStoreConfig :=
  {| vs_embeddings := embeddings env;
     client := {| client_url := env_get env "SUPABASE_URL";
                  client_key := env_get env "SUPABASE_SERVICE_ROLE_KEY" |};
     tableName := "documents";
     queryName := "match_documents" |}.

(** Step 5, the [try]/[catch] of lines 75-98 around the upload. *)
Definition upload (env : gmap string string) (w : World) (splittedDocs : list Document) : M unit unit :=
  try_catch
    (call (FromDocuments splittedDocs (target env)) (fromDocuments w splittedDocs (target env)) ;;
     console_log [LText upload_ok_message])
    upload_catch.

Definition processAndEmbedPolicy (env : gmap string string) (w : World) : M unit unit :=
  console_log [LText "Startar process för att ladda och bädda in returpolicy..."] ;;
  (* 1. environment *)
  let googleApiKey := env_get env "GOOGLE_API_KEY" in
  let supabaseUrl := env_get env "SUPABASE_URL" in
  let supabaseServiceRoleKey := env_get env "SUPABASE_SERVICE_ROLE_KEY" in
  (if negb (truthy googleApiKey) || negb (truthy supabaseUrl) || negb (truthy supabaseServiceRoleKey)
   then console_error [LText missing_env_message] ;; exit 1
   else ret tt) ;;
  (* 2. load the PDF *)
  console_log [LText ("Laddar PDF från: " +:+ pdfPath w)] ;;
  construct (ctor_fails w) (NewPDFLoader (pdfPath w)) ;;
  docs <- call (LoaderLoad (pdfPath w)) (loader_load w (pdfPath w)) ;;
  console_log [LText ("PDF laddad. Antal sidor/dokument: " +:+ pretty (length docs))] ;;
  (* 3. split *)
  console_log [LText "Delar upp texten i mindre bitar..."] ;;
  construct (ctor_fails w) (NewTextSplitter splitter) ;;
  splittedDocs <- call (SplitDocuments splitter docs) (splitDocuments w splitter docs) ;;
  console_log [LText ("Texten uppdelad i " +:+ pretty (length splittedDocs) +:+ " bitar.")] ;;
  (* 4. embeddings *)
  console_log [LText "Genererar embeddings för varje textbit med Google Gemini (embedding-001)..."] ;;
  construct (ctor_fails w) (NewEmbeddings (embeddings env)) ;;
  (* 5. upload *)
  console_log [LText "Laddar upp embeddings till Supabase..."] ;;
  construct (ctor_fails w) (CreateClient supabaseUrl supabaseServiceRoleKey) ;;
  upload env w splittedDocs ;;
  console_log [LText done_message].

(** The script from its first line: the start-up output, then
    [processAndEmbedPolicy().catch(console.error)]. *)
Definition script (env : gmap string string) (w : World) : M unit unit :=
  console_log [LText "Scriptet har startats (processPolicy.js)."] ;;
  console_log [LText "GOOGLE_API_KEY:"; loaded (env_get env "GOOGLE_API_KEY")] ;;
  console_log [LText "SUPABASE_URL:"; loaded (env_get env "SUPABASE_URL")] ;;
  console_log [LText "SUPABASE_SERVICE_ROLE_KEY:"; loaded (env_get env "SUPABASE_SERVICE_ROLE_KEY")] ;;
  try_catch (processAndEmbedPolicy env w) (fun error => console_error [LError error]).

(** Running the script as a process: what it printed and did, and its exit
    status. *)
Definition run (env : gmap string string) (w : World) : list Event * Z :=
  let r := script env w tt in (events r, exit_status (outcome r)).

End ProcessPolicy.

(** ** The text splitter *)

Module Chunker.

Section Windows.
Context {A : Type}.
Variables (size overlap : nat).

(** Modelled from the spec: the splitting algorithm is the library's
    [RecursiveCharacterTextSplitter], whose code is not part of the source; the
    script only fixes its options.  The spec describes it as overlapping
    fixed-size text windows: a chunk holds at most [size] units and shares
    [overlap] units with its neighbour, so a window of [size] units moves
    forward by [size - overlap] units until it reaches the end of the text. *)
Fixpoint windows (fuel : nat) (text : list A) : list (list A) :=
  match fuel with
  | 0 => []
  | S fuel' =>
      if (length text <=? size)%nat
      then [text]
      else take size text :: windows fuel' (drop (size - overlap) text)
  end.

(** Modelled from the spec: a text is split into its windows; an empty text
    has no chunk.  The window moves at least one unit a step, so as many steps
    as the text has units are enough. *)
Definition splitText (text : list A) : list (list A) :=
  match text with
  | [] => []
  | _ :: _ => windows (length text) text
  end.

End Windows.

(** Modelled from the spec: [splitDocuments] splits each page on its own and
    every chunk keeps the page index of the page it comes from. *)
Definition splitDocuments (cfg : SplitterConfig) (docs : list Document) : list Document :=
  flat_map
    (fun d => map (fun c => {| pageContent := c; page := page d |})
                  (splitText (chunkSize cfg) (chunkOverlap cfg) (pageContent d)))
    docs.

(** [ceil (a / b)] *)
Definition ceil_div (a b : nat) : nat := (a + b - 1) / b.

End Chunker.

(** ** The service, [index.js] *)

Module Index.

(** *** Bootstrap *)

(** The data of the built chain: the prompt and the model it pipes into. *)
Record ChainConfig : Type := mkChain {
  chain_prompt : list Segment;
  chain_llm : LLMConfig
}.

(** The module-level variables [let llm; let vectorStore; ...] (lines 51-55),
    [undefined] until assigned. *)
Record Globals : Type := mkGlobals {
  llm : option LLMConfig;
  vectorStore : option VectorStoreConfig;
  retriever : option RetrieverConfig;
  conversationChain : option ChainConfig;
  memory : option BufferMemory
}.

Definition no_globals : Globals :=
  {| llm := None; vectorStore := None; retriever := None;
     conversationChain := None; memory := None |}.

Definition set_llm (v : LLMConfig) (g : Globals) : Globals :=
  {| llm := Some v; vectorStore := vectorStore g; retriever := retriever g;
     conversationChain := conversationChain g; memory := memory g |}.

Definition set_vectorStore (v : VectorStoreConfig) (g : Globals) : Globals :=
  {| llm := llm g; vectorStore := Some v; retriever := retriever g;
     conversationChain := conversationChain g; memory := memory g |}.

Definition set_retriever (v : RetrieverConfig) (g : Globals) : Globals :=
  {| llm := llm g; vectorStore := vectorStore g; retriever := Some v;
     conversationChain := conversationChain g; memory := memory g |}.

Definition set_conversationChain (v : ChainConfig) (g : Globals) : Globals :=
  {| llm := llm g; vectorStore := vectorStore g; retriever := retriever g;
     conversationChain := Some v; memory := memory g |}.

Definition set_memory (v : BufferMemory) (g : Globals) : Globals :=
  {| llm := llm g; vectorStore := vectorStore g; retriever := retriever g;
     conversationChain := conversationChain g; memory := Some v |}.

(** The prompt template of lines 99-112, parsed into text and slots. *)
Definition chatPrompt : list Segment :=
  [ Lit (
      nl +:+
      "        Använd enbart följande utdrag från returpolicyn för att svara på användarens fråga." +:+ nl +:+
      "        Svara alltid neutralt och faktabaserat, baserat på den angivna informationen." +:+ nl +:+
      nl +:+
      "        Om du INTE kan hitta svaret i den tillhandahållna texten, vänligen svara artigt med något i stil med: " +:+ dq +:+ "Jag kunde tyvärr inte hitta svar på din fråga i vår returpolicy. Vänligen kontakta oss via e-post på support@farskvaruhornan.se så hjälper vi dig vidare." +:+ dq +:+ nl +:+
      nl +:+
      "        ---------------------" +:+ nl +:+
      "        ");
    Var "context";
    Lit (
      "  <-- Här injiceras relevanta textbitar från din policy" +:+ nl +:+
      "        ---------------------" +:+ nl +:+
      nl +:+
      "        Konversationshistorik:" +:+ nl +:+
      "        ");
    Var "chat_history";
    Lit (
      "  <-- Här injiceras tidigare meddelanden (frågor och svar)" +:+ nl +:+
      "        Användarens fråga: ");
    Var "question";
    Lit (
      nl +:+
      "        Svar:") ].

Definition missing_env_message : string :=
  "FEL: Saknar en eller flera nödvändiga miljövariabler. Kontrollera din .env-fil.".

Definition initializeAIComponents
    (googleApiKey supabaseUrl supabaseServiceRoleKey : JsValue)
    (fails : Construction -> option JsError) : M Globals unit :=
  try_catch
    (console_log [LText "Initierar Google Gemini LLM..."] ;;
     let llm_cfg := {| llm_apiKey := googleApiKey; llm_modelName := "gemini-1.5-flash";
                       temperature := 0; maxRetries := 2 |} in
     construct fails (NewChatLLM llm_cfg) ;;
     modify (set_llm llm_cfg) ;;
     console_log [LText "Gemini LLM initierad."] ;;
     console_log [LText "Initierar Supabase klient och vektorbutik med Google Embeddings..."] ;;
     construct fails (CreateClient supabaseUrl supabaseServiceRoleKey) ;;
     let supabase := {| client_url := supabaseUrl; client_key := supabaseServiceRoleKey |} in
     let embeddings := {| emb_apiKey := googleApiKey; emb_modelName := "embedding-001" |} in
     construct fails (NewEmbeddings embeddings) ;;
     let store_cfg := {| vs_embeddings := embeddings; client := supabase;
                         tableName := "documents"; queryName := "match_documents" |} in
     construct fails (NewVectorStore store_cfg) ;;
     modify (set_vectorStore store_cfg) ;;
     console_log [LText "Supabase vektorbutik initierad."] ;;
     let retriever_cfg := {| ret_store := store_cfg; k := 3 |} in
     construct fails (AsRetriever retriever_cfg) ;;
     modify (set_retriever retriever_cfg) ;;
     console_log [LText "Retriever för Supabase initierad."] ;;
     console_log [LText "Initierar konversationsminne..."] ;;
     construct fails (NewBufferMemory "chat_history" true) ;;
     modify (set_memory {| memoryKey := "chat_history"; returnMessages := true; turns := [] |}) ;;
     console_log [LText "Minne initierat."] ;;
     construct fails (NewPromptTemplate chatPrompt) ;;
     construct fails NewRunnableSequence ;;
     modify (set_conversationChain {| chain_prompt := chatPrompt; chain_llm := llm_cfg |}) ;;
     console_log [LText "RAG-kedjan med minnesstöd är byggd och redo."])
    (fun error =>
       console_error [LText "FEL vid initialisering av AI-komponenter:"; LError error] ;;
       exit 1).

(** [process.env.PORT || 5000] *)
Definition PORT (env : gmap string string) : JsValue :=
  if truthy (env_get env "PORT") then env_get env "PORT" else JNumber 5000.

(** The text of [PORT] inside the template literal of line 179. *)
Definition port_text (env : gmap string string) : string :=
  match PORT env with
  | JString s => s
  | _ => "5000"
  end.

(** The module from its first line to the moment the server listens.
    [app.listen] runs in the [then] callback with nothing around it to catch:
    it throws for a port it cannot take, or its server emits an error nobody
    listens for (a port in use), and either way the process dies with that
    error; [listens] says which.  The line of the callback is printed once the
    server listens. *)
Definition main (env : gmap string string) (fails : Construction -> option JsError)
    (listens : JsValue -> option JsError) : M Globals unit :=
  emit (AppUse Cors) ;;
  emit (AppUse ExpressJson) ;;
  let googleApiKey := env_get env "GOOGLE_API_KEY" in
  let supabaseUrl := env_get env "SUPABASE_URL" in
  let supabaseServiceRoleKey := env_get env "SUPABASE_SERVICE_ROLE_KEY" in
  console_log [LText "--- Diagnostik: Miljövariabler (index.js) ---"] ;;
  console_log [LText "GOOGLE_API_KEY:"; loaded googleApiKey] ;;
  console_log [LText "SUPABASE_URL:"; loaded supabaseUrl] ;;
  console_log [LText "SUPABASE_SERVICE_ROLE_KEY:"; loaded supabaseServiceRoleKey] ;;
  console_log [LText "----------------------------------------------"] ;;
  (if negb (truthy googleApiKey) || negb (truthy supabaseUrl) || negb (truthy supabaseServiceRoleKey)
   then console_error [LText missing_env_message] ;; exit 1
   else ret tt) ;;
  initializeAIComponents googleApiKey supabaseUrl supabaseServiceRoleKey fails ;;
  emit (AppGet "/") ;;
  emit (AppPost "/query") ;;
  emit (AppListen (PORT env)) ;;
  match listens (PORT env) with
  | Some error => throw error
  | None => console_log [LText ("Server körs på port " +:+ port_text env)]
  end.

(** *** The chain and the routes *)

(** What the outside world answers while a request is served, and how the
    template turns the values of its slots into text. *)
Record Services : Type := mkServices {
  retriever_invoke : JsValue -> Result (list Document);
  llm_invoke : string -> Result string;
  show_context : list Document -> string;
  show_question : JsValue -> string;
  show_history : option (list Message) -> string
}.

(** The history as messages: a human message and an AI message per round. *)
Definition chat_messages (m : BufferMemory) : list Message :=
  flat_map (fun t => [HumanMessage (input t); AIMessage (output t)]) (turns m).

(** [memory.loadMemoryVariables({})]: an object with the history under the
    memory's key. *)
Definition loadMemoryVariables (m : BufferMemory) : list (string * list Message) :=
  [(memoryKey m, chat_messages m)].

(** [memory.saveContext({ input }, { output })]: one more round at the end. *)
Definition saveContext (question : JsValue) (result : string) : M BufferMemory unit :=
  modify (fun m =>
    {| memoryKey := memoryKey m; returnMessages := returnMessages m;
       turns := (turns m ++ [{| input := question; output := result |}])%list |}).

Fixpoint lookup_key {V} (key : string) (l : list (string * V)) : option V :=
  match l with
  | [] => None
  | (k, v) :: rest => if String.eqb k key then Some v else lookup_key key rest
  end.

(** [value.key] on any value; only objects have properties here. *)
Definition property (key : string) (value : JsValue) : JsValue :=
  match value with
  | JObject fields => get_property key fields
  | _ => JUndefined
  end.

(** The values handed to the prompt, one per key of the first step. *)
Record PromptInput : Type := mkPromptInput {
  context : list Document;
  question : JsValue;
  chat_history : option (list Message)
}.

(** Step 1 of the chain (lines 118-126): the retriever is given
    [input.question], the pass-through hands on the input as it is, and the
    history is read from the memory. *)
Definition prepare (svc : Services) (input : JsValue) : M BufferMemory PromptInput :=
  docs <- call (RetrieverInvoke (property "question" input))
               (retriever_invoke svc (property "question" input)) ;;
  m <- get ;;
  ret {| context := docs;
         question := input;
         chat_history := lookup_key "chat_history" (loadMemoryVariables m) |}.

Definition slot (svc : Services) (values : PromptInput) (name : string) : option string :=
  if String.eqb name "context" then Some (show_context svc (context values))
  else if String.eqb name "question" then Some (show_question svc (question values))
  else if String.eqb name "chat_history" then Some (show_history svc (chat_history values))
  else None.

(** Step 2: fill the template; a slot without a value is an error. *)
Fixpoint format (svc : Services) (template : list Segment) (values : PromptInput) : Result string :=
  match template with
  | [] => Ok EmptyString
  | Lit text :: rest =>
      match format svc rest values with
      | Ok tail => Ok (text +:+ tail)
      | Fail e => Fail e
      end
  | Var name :: rest =>
      match slot svc values name with
      | Some text =>
          match format svc rest values with
          | Ok tail => Ok (text +:+ tail)
          | Fail e => Fail e
          end
      | None => Fail {| message := "Missing value for input " +:+ name |}
      end
  end.

(** [conversationChain.invoke(input)]: prepare, fill the template, call the
    model; the output parser hands on the text of the model's message. *)
Definition conversationChain_invoke (svc : Services) (input : JsValue) : M BufferMemory string :=
  values <- prepare svc input ;;
  prompt <- of_result (format svc chatPrompt values) ;;
  text <- call (LLMInvoke prompt) (llm_invoke svc prompt) ;;
  ret text.

Inductive Payload : Type :=
| SendText (text : string)
| SendJson (value : JsValue).

Record Response : Type := mkResponse {
  status : Z;
  payload : Payload
}.

(** [GET /] *)
Definition get_root : M BufferMemory Response :=
  ret {| status := 200;
         payload := SendText "Välkommen till Return Policy Chatbot Backend (AI redo)!" |}.

(** [POST /query]; [body] is the object [express.json()] leaves in
    [req.body]. *)
Definition post_query (svc : Services) (body : list (string * JsValue)) : M BufferMemory Response :=
  let question := get_property "question" body in
  console_log [LText "Mottagen fråga från frontend:"; LValue question] ;;
  if negb (truthy question)
  then ret {| status := 400;
              payload := SendJson (JObject [("error", JString "Fråga saknas i förfrågan.")]) |}
  else
    try_catch
      (result <- conversationChain_invoke svc (JObject [("question", question)]) ;;
       saveContext question result ;;
       console_log [LText "AI-svar genererat och minne uppdaterat:"; LText result] ;;
       ret {| status := 200; payload := SendJson (JObject [("answer", JString result)]) |})
      (fun error =>
         console_error [LText "FEL vid generering av AI-svar:"; LError error] ;;
         ret {| status := 500;
                payload := SendJson (JObject [("error", JString "Kunde inte generera svar. Försök igen senare.")]) |}).

(** The handler of [POST /query] from [req.body] as the middleware left it.
    The destructuring of line 150 is outside the [try]: it throws for a body
    that is [undefined] or [null], before anything is printed.  Any other
    value can be destructured, and one that is not an object has no
    [question]. *)
Definition query_handler (svc : Services) (req_body : JsValue) : M BufferMemory Response :=
  match req_body with
  | JUndefined =>
      throw {| message := "Cannot destructure property 'question' of 'req.body' as it is undefined." |}
  | JNull =>
      throw {| message := "Cannot destructure property 'question' of 'req.body' as it is null." |}
  | JObject fields => post_query svc fields
  | _ => post_query svc []
  end.

(** The operations the service exposes.  A handler is run from the request to
    its response against the memory as it is when the request arrives. *)
Inductive Request : Type :=
| GetRoot
| PostQuery (body : list (string * JsValue)).

Definition handle (svc : Services) (req : Request) : M BufferMemory Response :=
  match req with
  | GetRoot => get_root
  | PostQuery body => post_query svc body
  end.

(** Requests served one after the other, each against its own answers of the
    outside world. *)
Fixpoint serve (reqs : list (Services * Request)) : M BufferMemory (list Response) :=
  match reqs with
  | [] => ret []
  | (svc, req) :: rest =>
      response <- handle svc req ;;
      responses <- serve rest ;;
      ret (response :: responses)
  end.

(** The queries the retriever was given, and the prompts the model was given,
    in a sequence of events. *)
Definition retriever_inputs (evs : list Event) : list JsValue :=
  flat_map (fun ev => match ev with Called (RetrieverInvoke q) => [q] | _ => [] end) evs.

Definition llm_inputs (evs : list Event) : list string :=
  flat_map (fun ev => match ev with Called (LLMInvoke p) => [p] | _ => [] end) evs.

(** The components built during bootstrap, in order. *)
Definition constructions (evs : list Event) : list Construction :=
  flat_map (fun ev => match ev with New c => [c] | _ => [] end) evs.

End Index.

(** ** Vocabulary of the statements, and sample inputs *)

(** The three settings both programs require. *)
Definition required_keys : list string :=
  ["GOOGLE_API_KEY"; "SUPABASE_URL"; "SUPABASE_SERVICE_ROLE_KEY"].

(** Work beyond console output and middleware registration: building a
    component, calling a library, registering a route, listening. *)
Definition is_work (ev : Event) : bool :=
  match ev with
  | ConsoleLog _ | ConsoleError _ | AppUse _ => false
  | New _ | Called _ | AppGet _ | AppPost _ | AppListen _ => true
  end.

(** The four components the bootstrap is known for, among all it builds. *)
Definition is_core_component (c : Construction) : bool :=
  match c with
  | NewChatLLM _ | NewVectorStore _ | AsRetriever _ | NewBufferMemory _ _ => true
  | _ => false
  end.

Module Samples.

Definition full_env : gmap string string :=
  <["GOOGLE_API_KEY" := "g-key"]>
    (<["SUPABASE_URL" := "https://db.example"]>
       (<["SUPABASE_SERVICE_ROLE_KEY" := "s-key"]> ∅)).

(** The same environment without the vector-store URL. *)
Definition env_without_url : gmap string string := delete "SUPABASE_URL" full_env.

Definition no_failure : Construction -> option JsError := fun _ => None.

(** Every port can be taken. *)
Definition port_free : JsValue -> option JsError := fun _ => None.

Definition policy_page : Document :=
  {| pageContent := list_ascii_of_string "Varor kan returneras inom 30 dagar."; page := 0 |}.

(** A world where everything works except, possibly, the upload. *)
Definition world (upload : Result unit) : ProcessPolicy.World :=
  {| ProcessPolicy.dirname := "/srv/backend";
     ProcessPolicy.path_join := fun a b => a +:+ "/" +:+ b;
     ProcessPolicy.ctor_fails := no_failure;
     ProcessPolicy.loader_load := fun _ => Ok [policy_page];
     ProcessPolicy.splitDocuments := fun cfg docs => Ok (Chunker.splitDocuments cfg docs);
     ProcessPolicy.fromDocuments := fun _ _ => upload |}.

Definition dimension_error : JsError :=
  {| message := "Error inserting: expected 1536 dimensions, not 768 (vector dimension mismatch)" |}.

Definition network_error : JsError := {| message := "fetch failed" |}.

(** A retriever that returns fixed chunks and a model that echoes its
    prompt. *)
Definition echo (retrieval : Result (list Document)) (model : string -> Result string) : Index.Services :=
  {| Index.retriever_invoke := fun _ => retrieval;
     Index.llm_invoke := model;
     Index.show_context := fun docs => pretty (length docs) +:+ " chunks";
     Index.show_question := fun _ => "[object Object]";
     Index.show_history := fun h =>
       match h with
       | Some msgs => pretty (length msgs) +:+ " messages"
       | None => "undefined"
       end |}.

Definition fresh_memory : BufferMemory :=
  {| memoryKey := "chat_history"; returnMessages := true; turns := [] |}.

(** A memory that already holds one round. *)
Definition used_memory : BufferMemory :=
  {| memoryKey := "chat_history"; returnMessages := true;
     turns := [ {| input := JString "Hej"; output := "Hej! Hur kan jag hjälpa dig?" |} ] |}.

Definition ask (text : string) : list (string * JsValue) := [("question", JString text)].

(** A text of [n] units. *)
Definition text_of_length (n : nat) : list nat := seq 0 n.

End Samples.

(** ** Vocabulary for the whole runs *)

(** Every required setting is there and is not the empty string. *)
Definition config_complete (env : gmap string string) : bool :=
  forallb (fun key => truthy (env_get env key)) required_keys.

(** The uploads a run made: the chunks and the table they went to. *)
Definition upload_calls (evs : list Event) : list (list Document * VectorStoreConfig) :=
  flat_map (fun ev => match ev with
                      | Called (FromDocuments docs cfg) => [(docs, cfg)]
                      | _ => []
                      end) evs.

(** The texts a run handed to the splitter. *)
Definition split_calls (evs : list Event) : list (list Document) :=
  flat_map (fun ev => match ev with
                      | Called (SplitDocuments _ docs) => [docs]
                      | _ => []
                      end) evs.

(** Route registration and listening. *)
Definition is_route (ev : Event) : bool :=
  match ev with
  | AppGet _ | AppPost _ | AppListen _ => true
  | _ => false
  end.

(** What a run printed on the error stream. *)
Definition error_output (evs : list Event) : list (list LogArg) :=
  flat_map (fun ev => match ev with ConsoleError args => [args] | _ => [] end) evs.

(** How many of the requests were queries answered with status 200. *)
Fixpoint answered (reqs : list (Index.Services * Index.Request))
    (responses : list Index.Response) : nat :=
  match reqs, responses with
  | (_, Index.PostQuery _) :: reqs', response :: responses' =>
      (if (Index.status response =? 200)%Z then 1 else 0) + answered reqs' responses'
  | (_, Index.GetRoot) :: reqs', _ :: responses' => answered reqs' responses'
  | _, _ => 0
  end.

(** The units of a document: those of all its pages. *)
Definition document_length (docs : list Document) : nat :=
  sum_list (map (fun d => length (pageContent d)) docs).

Module SamplePages.

(** A page of [n] times the character [c]. *)
Definition page_of (c : ascii) (n index : nat) : Document :=
  {| pageContent := repeat c n; page := index |}.

Definition two_long_pages : list Document :=
  [page_of "a" 1500 0; page_of "b" 1500 1].

Definition ten_short_pages : list Document :=
  map (page_of "x" 100) (seq 0 10).

End SamplePages.

(** * Properties *)

(** Unfolds the plumbing of a run, leaving the answers of the oracles. *)
Ltac run :=
  cbv beta iota zeta delta
    [bind try_catch emit throw ret exit get modify of_result call construct
     console_log console_error outcome store events fst snd negb];
  cbn [app].

(** ** Missing configuration *)

Lemma absent_is_falsy (env : gmap string string) (key : string) :
  env !! key = None -> truthy (env_get env key) = false.
Proof. intros H. unfold env_get. now rewrite H. Qed.

(** The guard of both programs fires as soon as one required setting is
    absent. *)
Lemma guard_fires (env : gmap string string) (key : string) :
  key ∈ required_keys ->
  env !! key = None ->
  negb (truthy (env_get env "GOOGLE_API_KEY"))
  || negb (truthy (env_get env "SUPABASE_URL"))
  || negb (truthy (env_get env "SUPABASE_SERVICE_ROLE_KEY")) = true.
Proof.
  intros Hin Hnone. unfold required_keys in Hin.
  apply absent_is_falsy in Hnone.
  rewrite !elem_of_cons in Hin.
  destruct Hin as [-> | [-> | [-> | Hin]]].
  - rewrite Hnone. reflexivity.
  - rewrite Hnone. simpl. apply orb_true_iff. left. apply orb_true_r.
  - rewrite Hnone. apply orb_true_r.
  - inversion Hin.
Qed.

(** C6: when one of GOOGLE_API_KEY, SUPABASE_URL, SUPABASE_SERVICE_ROLE_KEY is
    absent from the environment, the service ([Index.main]) and the ingestion
    script ([ProcessPolicy.script]) both end with exit status 1; the last thing
    either does is print the diagnostic on the error stream, and neither has
    built a component, called a library, registered a route or listened. *)
Theorem missing_configuration_exits (env : gmap string string) (key : string) :
  key ∈ required_keys ->
  env !! key = None ->
  (forall fails listens g,
     let r := Index.main env fails listens g in
     outcome r = Exited 1 /\ store r = g /\
     last (events r) = Some (ConsoleError [LText Index.missing_env_message]) /\
     forallb (fun ev => negb (is_work ev)) (events r) = true) /\
  (forall w,
     let r := ProcessPolicy.script env w tt in
     outcome r = Exited 1 /\ exit_status (outcome r) = 1%Z /\
     last (events r) = Some (ConsoleError [LText ProcessPolicy.missing_env_message]) /\
     forallb (fun ev => negb (is_work ev)) (events r) = true).
Proof.
  intros Hin Hnone. pose proof (guard_fires env key Hin Hnone) as Hguard.
  split.
  - intros fails listens g r. subst r. unfold Index.main.
    cbv zeta. rewrite Hguard.
    repeat split.
  - intros w r. subst r. unfold ProcessPolicy.script, ProcessPolicy.processAndEmbedPolicy.
    cbv zeta. rewrite Hguard.
    repeat split.
Qed.

Lemma missing_configuration_exits_witness :
  outcome (Index.main Samples.env_without_url Samples.no_failure Samples.port_free Index.no_globals) = Exited 1 /\
  exit_status (outcome (ProcessPolicy.script Samples.env_without_url (Samples.world (Ok tt)) tt)) = 1%Z.
Proof.
  assert (Hkey : "SUPABASE_URL" ∈ required_keys) by (unfold required_keys; set_solver).
  assert (Habsent : Samples.env_without_url !! "SUPABASE_URL" = None) by reflexivity.
  destruct (missing_configuration_exits Samples.env_without_url "SUPABASE_URL" Hkey Habsent)
    as [Hservice Hscript].
  split.
  - apply (Hservice Samples.no_failure Samples.port_free Index.no_globals).
  - apply (Hscript (Samples.world (Ok tt))).
Defined.

(** ** A failed upload *)

Lemma all_present (env : gmap string string) :
  truthy (env_get env "GOOGLE_API_KEY") = true ->
  truthy (env_get env "SUPABASE_URL") = true ->
  truthy (env_get env "SUPABASE_SERVICE_ROLE_KEY") = true ->
  negb (truthy (env_get env "GOOGLE_API_KEY"))
  || negb (truthy (env_get env "SUPABASE_URL"))
  || negb (truthy (env_get env "SUPABASE_SERVICE_ROLE_KEY")) = false.
Proof. intros -> -> ->. reflexivity. Qed.

Lemma emit_all_run {S} (evs : list Event) (s : S) :
  ProcessPolicy.emit_all evs s = (Returned tt, s, evs).
Proof.
  induction evs as [| ev evs IH]; [ reflexivity | ].
  cbn. unfold bind, emit. rewrite IH. reflexivity.
Qed.

(** What the [catch] block of the upload does with an error. *)
Lemma upload_catch_run (e : JsError) :
  ProcessPolicy.upload_catch e tt =
  (Returned tt, tt,
   ConsoleError [LText ProcessPolicy.upload_failed_message; LError e]
   :: (if includes "vector dimension mismatch" (message e)
       then ProcessPolicy.dimension_hints else [])).
Proof.
  unfold ProcessPolicy.upload_catch, bind, console_error, emit.
  destruct (includes _ _).
  - rewrite emit_all_run. reflexivity.
  - reflexivity.
Qed.

(** The upload step when the write fails: the call is made, the error is
    printed with the hints that apply, and the step returns. *)
Lemma upload_run_failed (env : gmap string string) (w : ProcessPolicy.World)
    (chunks : list Document) (e : JsError) :
  ProcessPolicy.fromDocuments w chunks (ProcessPolicy.target env) = Fail e ->
  ProcessPolicy.upload env w chunks tt =
  (Returned tt, tt,
   Called (FromDocuments chunks (ProcessPolicy.target env))
   :: ConsoleError [LText ProcessPolicy.upload_failed_message; LError e]
   :: (if includes "vector dimension mismatch" (message e)
       then ProcessPolicy.dimension_hints else [])).
Proof.
  intros Hwrite. unfold ProcessPolicy.upload. run. rewrite Hwrite. run.
  rewrite upload_catch_run. reflexivity.
Qed.

(** C1 (amended): when the batch write to the vector store fails, the
    ingestion run does not fail.  The error is caught where the upload is
    made and printed on the error stream, followed by the four hints when its
    message mentions a dimension mismatch; the success message of the upload
    is not printed; the function then prints its closing message and returns,
    and the script ends with exit status 0. *)
Theorem failed_upload_is_logged_and_run_completes
    (env : gmap string string) (w : ProcessPolicy.World)
    (docs chunks : list Document) (e : JsError) :
  truthy (env_get env "GOOGLE_API_KEY") = true ->
  truthy (env_get env "SUPABASE_URL") = true ->
  truthy (env_get env "SUPABASE_SERVICE_ROLE_KEY") = true ->
  (forall c, ProcessPolicy.ctor_fails w c = None) ->
  ProcessPolicy.loader_load w (ProcessPolicy.pdfPath w) = Ok docs ->
  ProcessPolicy.splitDocuments w ProcessPolicy.splitter docs = Ok chunks ->
  ProcessPolicy.fromDocuments w chunks (ProcessPolicy.target env) = Fail e ->
  let r := ProcessPolicy.processAndEmbedPolicy env w tt in
  outcome r = Returned tt /\
  (exists before,
     events r =
     (before
      ++ [Called (FromDocuments chunks (ProcessPolicy.target env));
          ConsoleError [LText ProcessPolicy.upload_failed_message; LError e]]
      ++ (if includes "vector dimension mismatch" (message e)
          then ProcessPolicy.dimension_hints else [])
      ++ [ConsoleLog [LText ProcessPolicy.done_message]])%list) /\
  (ConsoleLog [LText ProcessPolicy.upload_ok_message] ∉ events r) /\
  exit_status (outcome (ProcessPolicy.script env w tt)) = 0%Z.
Proof.
  intros Hg Hu Hk Hctor Hload Hsplit Hwrite r.
  assert (Hrun : exists before,
    r = (Returned tt, tt,
         (before
          ++ [Called (FromDocuments chunks (ProcessPolicy.target env));
              ConsoleError [LText ProcessPolicy.upload_failed_message; LError e]]
          ++ (if includes "vector dimension mismatch" (message e)
              then ProcessPolicy.dimension_hints else [])
          ++ [ConsoleLog [LText ProcessPolicy.done_message]])%list) /\
    ConsoleLog [LText ProcessPolicy.upload_ok_message] ∉ before).
  { subst r. unfold ProcessPolicy.processAndEmbedPolicy.
    cbv zeta. rewrite (all_present env Hg Hu Hk).
    run. rewrite !Hctor. rewrite Hload. run. rewrite Hsplit. run.
    rewrite (upload_run_failed env w chunks e Hwrite).
    eexists (_ :: _ :: _ :: _ :: _ :: _ :: _ :: _ :: _ :: _ :: _ :: _ :: _ :: []).
    split.
    - cbn [app]. reflexivity.
    - intros Hin.
      repeat (apply elem_of_cons in Hin as [Heq | Hin];
              [ discriminate Heq | ]).
      inversion Hin. }
  destruct Hrun as (before & Hr & Hfresh).
  split; [ | split; [ | split ] ].
  - rewrite Hr. reflexivity.
  - exists before. rewrite Hr. reflexivity.
  - rewrite Hr. unfold events. cbn [snd].
    rewrite !elem_of_app, !elem_of_cons. 
    intros [Hin | [[Heq | [Heq | Hin]] | [Hin | [Heq | Hin]]]];
      try discriminate Heq; try (inversion Hin; fail); try (apply Hfresh; exact Hin).
    destruct (includes _ _); [ | inversion Hin ].
    unfold ProcessPolicy.dimension_hints in Hin.
    repeat (apply elem_of_cons in Hin as [Heq | Hin]; [ discriminate Heq | ]).
    inversion Hin.
  - unfold ProcessPolicy.script. run. fold r. rewrite Hr. reflexivity.
Qed.

Lemma failed_upload_is_logged_and_run_completes_witness :
  outcome (ProcessPolicy.processAndEmbedPolicy Samples.full_env
             (Samples.world (Fail Samples.dimension_error)) tt) = Returned tt /\
  exit_status (outcome (ProcessPolicy.script Samples.full_env
                          (Samples.world (Fail Samples.dimension_error)) tt)) = 0%Z.
Proof.
  pose proof (failed_upload_is_logged_and_run_completes
                Samples.full_env (Samples.world (Fail Samples.dimension_error))
                [Samples.policy_page]
                (Chunker.splitDocuments ProcessPolicy.splitter [Samples.policy_page])
                Samples.dimension_error
                eq_refl eq_refl eq_refl (fun _ => eq_refl) eq_refl eq_refl eq_refl)
    as (Hreturned & _ & _ & Hstatus).
  split; [ exact Hreturned | exact Hstatus ].
Defined.

(** C1 as stated fails: with every setting present and a vector store that
    rejects the write (here a connectivity failure), the ingestion function
    returns instead of failing, the closing message is printed, and the
    script ends with exit status 0. *)
Lemma failed_upload_does_not_abort :
  (forall chunks cfg,
     ProcessPolicy.fromDocuments (Samples.world (Fail Samples.network_error)) chunks cfg
     = Fail Samples.network_error) /\
  outcome (ProcessPolicy.processAndEmbedPolicy Samples.full_env
             (Samples.world (Fail Samples.network_error)) tt) = Returned tt /\
  ~ (exists err,
       outcome (ProcessPolicy.processAndEmbedPolicy Samples.full_env
                  (Samples.world (Fail Samples.network_error)) tt) = Thrown err) /\
  last (ProcessPolicy.run Samples.full_env (Samples.world (Fail Samples.network_error))).1
  = Some (ConsoleLog [LText ProcessPolicy.done_message]) /\
  (ProcessPolicy.run Samples.full_env (Samples.world (Fail Samples.network_error))).2 = 0%Z.
Proof.
  split; [ reflexivity | ].
  split; [ reflexivity | ].
  split; [ intros [err Herr]; discriminate Herr | ].
  split; reflexivity.
Qed.

(** ** Bootstrap *)

(** C8: when [initializeAIComponents] returns, it has built, in this order, the
    LLM client with temperature 0 and [maxRetries] 2, the vector store on table
    "documents" with search function "match_documents", the retriever over that
    store with k = 3, and a conversation memory without any round; these are
    the values the module-level variables then hold. *)
Theorem bootstrap_builds_components_in_order
    (googleApiKey supabaseUrl supabaseServiceRoleKey : JsValue)
    (fails : Construction -> option JsError) (g : Index.Globals) :
  let r := Index.initializeAIComponents googleApiKey supabaseUrl supabaseServiceRoleKey fails g in
  outcome r = Returned tt ->
  exists llm_cfg store_cfg retriever_cfg mem,
    filter is_core_component (Index.constructions (events r))
    = [NewChatLLM llm_cfg; NewVectorStore store_cfg; AsRetriever retriever_cfg;
       NewBufferMemory (memoryKey mem) (returnMessages mem)] /\
    temperature llm_cfg = 0%Z /\ maxRetries llm_cfg = 2%Z /\
    tableName store_cfg = "documents" /\ queryName store_cfg = "match_documents" /\
    ret_store retriever_cfg = store_cfg /\ k retriever_cfg = 3%Z /\
    turns mem = [] /\
    Index.llm (store r) = Some llm_cfg /\
    Index.vectorStore (store r) = Some store_cfg /\
    Index.retriever (store r) = Some retriever_cfg /\
    Index.memory (store r) = Some mem.
Proof.
  intros r Hret. subst r. revert Hret.
  unfold Index.initializeAIComponents. run.
  destruct (fails (NewChatLLM _)); run; [ discriminate | ].
  destruct (fails (CreateClient _ _)); run; [ discriminate | ].
  destruct (fails (NewEmbeddings _)); run; [ discriminate | ].
  destruct (fails (NewVectorStore _)); run; [ discriminate | ].
  destruct (fails (AsRetriever _)); run; [ discriminate | ].
  destruct (fails (NewBufferMemory _ _)); run; [ discriminate | ].
  destruct (fails (NewPromptTemplate _)); run; [ discriminate | ].
  destruct (fails NewRunnableSequence); run; [ discriminate | ].
  intros _.
  eexists _, _, _, {| memoryKey := "chat_history"; returnMessages := true; turns := [] |}.
  repeat split.
Qed.

Lemma bootstrap_builds_components_in_order_witness :
  exists llm_cfg mem,
    Index.llm (store (Index.initializeAIComponents (JString "g-key") (JString "https://db.example")
                        (JString "s-key") Samples.no_failure Index.no_globals)) = Some llm_cfg /\
    temperature llm_cfg = 0%Z /\ maxRetries llm_cfg = 2%Z /\
    Index.memory (store (Index.initializeAIComponents (JString "g-key") (JString "https://db.example")
                           (JString "s-key") Samples.no_failure Index.no_globals)) = Some mem /\
    turns mem = [].
Proof.
  destruct (bootstrap_builds_components_in_order
              (JString "g-key") (JString "https://db.example") (JString "s-key")
              Samples.no_failure Index.no_globals eq_refl)
    as (llm_cfg & store_cfg & retriever_cfg & mem & _ & Ht & Hr & _ & _ & _ & _ & Hturns
        & Hllm & _ & _ & Hmem).
  exists llm_cfg, mem. repeat split; assumption.
Defined.

(** ** The query route *)

(** The prompt template has a value for each of its slots. *)
Lemma format_chatPrompt_total (svc : Index.Services) (values : Index.PromptInput) :
  exists prompt, Index.format svc Index.chatPrompt values = Ok prompt.
Proof. eexists. reflexivity. Qed.

Section QueryRuns.
Variables (svc : Index.Services) (body : list (string * JsValue)) (m : BufferMemory).

Local Abbreviation asked := (get_property "question" body).
Local Abbreviation received :=
  (ConsoleLog [LText "Mottagen fråga från frontend:"; LValue asked]).
Local Abbreviation values docs :=
  {| Index.context := docs;
     Index.question := JObject [("question", asked)];
     Index.chat_history := Index.lookup_key "chat_history" (Index.loadMemoryVariables m) |}.

(** The four ways a query can go, each with the whole result of the run. *)
Lemma post_query_rejected :
  truthy asked = false ->
  Index.post_query svc body m =
  (Returned {| Index.status := 400;
               Index.payload := Index.SendJson (JObject [("error", JString "Fråga saknas i förfrågan.")]) |},
   m, [received]).
Proof.
  intros Hfalsy. unfold Index.post_query. cbv zeta. rewrite Hfalsy.
  reflexivity.
Qed.

Lemma post_query_retrieval_failed (e : JsError) :
  truthy asked = true ->
  Index.retriever_invoke svc asked = Fail e ->
  Index.post_query svc body m =
  (Returned {| Index.status := 500;
               Index.payload := Index.SendJson (JObject [("error", JString "Kunde inte generera svar. Försök igen senare.")]) |},
   m,
   [received; Called (RetrieverInvoke asked);
    ConsoleError [LText "FEL vid generering av AI-svar:"; LError e]]).
Proof.
  intros Htruthy Hretr. unfold Index.post_query. cbv zeta. rewrite Htruthy.
  unfold Index.conversationChain_invoke, Index.prepare.
  change (Index.property "question" (JObject [("question", asked)])) with asked.
  run. rewrite Hretr. reflexivity.
Qed.

Lemma post_query_model_failed (docs : list Document) (prompt : string) (e : JsError) :
  truthy asked = true ->
  Index.retriever_invoke svc asked = Ok docs ->
  Index.format svc Index.chatPrompt (values docs) = Ok prompt ->
  Index.llm_invoke svc prompt = Fail e ->
  Index.post_query svc body m =
  (Returned {| Index.status := 500;
               Index.payload := Index.SendJson (JObject [("error", JString "Kunde inte generera svar. Försök igen senare.")]) |},
   m,
   [received; Called (RetrieverInvoke asked); Called (LLMInvoke prompt);
    ConsoleError [LText "FEL vid generering av AI-svar:"; LError e]]).
Proof.
  intros Htruthy Hretr Hformat Hllm. unfold Index.post_query. cbv zeta. rewrite Htruthy.
  unfold Index.conversationChain_invoke, Index.prepare.
  change (Index.property "question" (JObject [("question", asked)])) with asked.
  run. rewrite Hretr. run. rewrite Hformat. run. rewrite Hllm.
  reflexivity.
Qed.

Lemma post_query_answered (docs : list Document) (prompt text : string) :
  truthy asked = true ->
  Index.retriever_invoke svc asked = Ok docs ->
  Index.format svc Index.chatPrompt (values docs) = Ok prompt ->
  Index.llm_invoke svc prompt = Ok text ->
  Index.post_query svc body m =
  (Returned {| Index.status := 200;
               Index.payload := Index.SendJson (JObject [("answer", JString text)]) |},
   {| memoryKey := memoryKey m; returnMessages := returnMessages m;
      turns := (turns m ++ [{| input := asked; output := text |}])%list |},
   [received; Called (RetrieverInvoke asked); Called (LLMInvoke prompt);
    ConsoleLog [LText "AI-svar genererat och minne uppdaterat:"; LText text]]).
Proof.
  intros Htruthy Hretr Hformat Hllm. unfold Index.post_query. cbv zeta. rewrite Htruthy.
  unfold Index.conversationChain_invoke, Index.prepare, Index.saveContext.
  change (Index.property "question" (JObject [("question", asked)])) with asked.
  run. rewrite Hretr. run. rewrite Hformat. run. rewrite Hllm.
  reflexivity.
Qed.

End QueryRuns.

(** C2: a [POST /query] whose body holds a question that passes the handler's
    test (a non-empty string, for one), answered by a retriever and a model
    that both succeed, gets status 200 and the JSON body [{answer: text}] where
    [text] is the parsed output of the model; afterwards the memory holds the
    rounds it held before followed by the round (question, text), one round
    more than before. *)
Theorem query_answered_with_200_and_one_more_turn
    (svc : Index.Services) (body : list (string * JsValue)) (m : BufferMemory)
    (docs : list Document) (prompt text : string) :
  truthy (get_property "question" body) = true ->
  Index.retriever_invoke svc (get_property "question" body) = Ok docs ->
  Index.format svc Index.chatPrompt
    {| Index.context := docs;
       Index.question := JObject [("question", get_property "question" body)];
       Index.chat_history := Index.lookup_key "chat_history" (Index.loadMemoryVariables m) |}
  = Ok prompt ->
  Index.llm_invoke svc prompt = Ok text ->
  let r := Index.post_query svc body m in
  outcome r = Returned {| Index.status := 200;
                          Index.payload := Index.SendJson (JObject [("answer", JString text)]) |} /\
  turns (store r)
  = (turns m ++ [{| input := get_property "question" body; output := text |}])%list /\
  length (turns (store r)) = S (length (turns m)).
Proof.
  intros Htruthy Hretr Hformat Hllm r. subst r.
  rewrite (post_query_answered svc body m docs prompt text Htruthy Hretr Hformat Hllm).
  cbn [outcome store fst snd turns].
  split; [ reflexivity | ]. split; [ reflexivity | ].
  rewrite length_app. cbn [length]. lia.
Qed.

(** C3: a [POST /query] whose body has no question, or an empty one (any value
    the handler's test [!question] rejects), gets status 400 and a JSON body
    with an [error] field; neither the retriever nor the model is called, the
    only event is the log line of the handler, and the memory is the one from
    before the request. *)
Theorem query_without_question_rejected
    (svc : Index.Services) (body : list (string * JsValue)) (m : BufferMemory) :
  truthy (get_property "question" body) = false ->
  let r := Index.post_query svc body m in
  outcome r = Returned {| Index.status := 400;
                          Index.payload := Index.SendJson (JObject [("error", JString "Fråga saknas i förfrågan.")]) |} /\
  store r = m /\
  Index.retriever_inputs (events r) = [] /\
  Index.llm_inputs (events r) = [] /\
  forallb (fun ev => negb (is_work ev)) (events r) = true.
Proof.
  intros Hfalsy r. subst r. rewrite (post_query_rejected svc body m Hfalsy).
  repeat split.
Qed.

(** C4: a [POST /query] with a question that passes the handler's test, whose
    retrieval fails or whose model call fails, gets status 500 and a JSON body
    with an [error] field; the handler returns: it neither throws nor ends the
    process. *)
Theorem query_failure_answered_with_500
    (svc : Index.Services) (body : list (string * JsValue)) (m : BufferMemory) (e : JsError) :
  truthy (get_property "question" body) = true ->
  (Index.retriever_invoke svc (get_property "question" body) = Fail e \/
   exists docs prompt,
     Index.retriever_invoke svc (get_property "question" body) = Ok docs /\
     Index.format svc Index.chatPrompt
       {| Index.context := docs;
          Index.question := JObject [("question", get_property "question" body)];
          Index.chat_history := Index.lookup_key "chat_history" (Index.loadMemoryVariables m) |}
     = Ok prompt /\
     Index.llm_invoke svc prompt = Fail e) ->
  let r := Index.post_query svc body m in
  outcome r = Returned {| Index.status := 500;
                          Index.payload := Index.SendJson (JObject [("error", JString "Kunde inte generera svar. Försök igen senare.")]) |} /\
  (forall code, outcome r <> Exited code) /\
  (forall err, outcome r <> Thrown err) /\
  last (events r) = Some (ConsoleError [LText "FEL vid generering av AI-svar:"; LError e]).
Proof.
  intros Htruthy Hfail r. subst r.
  destruct Hfail as [Hretr | (docs & prompt & Hretr & Hformat & Hllm)].
  - rewrite (post_query_retrieval_failed svc body m e Htruthy Hretr).
    repeat split; intros; discriminate.
  - rewrite (post_query_model_failed svc body m docs prompt e Htruthy Hretr Hformat Hllm).
    repeat split; intros; discriminate.
Qed.

(** The store after a query is the store before, or the store before with
    one round added; the second only with status 200. *)
Lemma post_query_store (svc : Index.Services) (body : list (string * JsValue)) (m : BufferMemory) :
  let r := Index.post_query svc body m in
  (store r = m /\ exists response, outcome r = Returned response /\ Index.status response <> 200%Z) \/
  (exists text,
     store r = {| memoryKey := memoryKey m; returnMessages := returnMessages m;
                  turns := (turns m ++ [{| input := get_property "question" body; output := text |}])%list |} /\
     exists response, outcome r = Returned response /\ Index.status response = 200%Z).
Proof.
  intros r. subst r.
  destruct (truthy (get_property "question" body)) eqn:Htruthy.
  - destruct (Index.retriever_invoke svc (get_property "question" body)) as [docs | e] eqn:Hretr.
    + destruct (format_chatPrompt_total svc
                  {| Index.context := docs;
                     Index.question := JObject [("question", get_property "question" body)];
                     Index.chat_history :=
                       Index.lookup_key "chat_history" (Index.loadMemoryVariables m) |})
        as [prompt Hformat].
      destruct (Index.llm_invoke svc prompt) as [text | e] eqn:Hllm.
      * right. exists text.
        rewrite (post_query_answered svc body m docs prompt text Htruthy Hretr Hformat Hllm).
        split; [ reflexivity | ]. eexists. split; reflexivity.
      * left.
        rewrite (post_query_model_failed svc body m docs prompt e Htruthy Hretr Hformat Hllm).
        split; [ reflexivity | ]. eexists. split; [ reflexivity | discriminate ].
    + left. rewrite (post_query_retrieval_failed svc body m e Htruthy Hretr).
      split; [ reflexivity | ]. eexists. split; [ reflexivity | discriminate ].
  - left. rewrite (post_query_rejected svc body m Htruthy).
    split; [ reflexivity | ]. eexists. split; [ reflexivity | discriminate ].
Qed.

(** C10: a [POST /query] that ends with status 500 leaves the conversation
    memory as it was before the request. *)
Theorem failed_query_leaves_memory_unchanged
    (svc : Index.Services) (body : list (string * JsValue)) (m : BufferMemory)
    (response : Index.Response) :
  outcome (Index.post_query svc body m) = Returned response ->
  Index.status response = 500%Z ->
  store (Index.post_query svc body m) = m.
Proof.
  intros Hout Hstatus.
  destruct (post_query_store svc body m) as [[Hsame _] | (text & _ & response' & Hout' & Hok)].
  - exact Hsame.
  - rewrite Hout in Hout'. injection Hout' as <-. rewrite Hstatus in Hok. discriminate.
Qed.

(** What a request does to the memory: its options stay, and its rounds stay
    at the front, in order. *)
Lemma handle_store (svc : Index.Services) (req : Index.Request) (m : BufferMemory) :
  let m' := store (Index.handle svc req m) in
  memoryKey m' = memoryKey m /\ returnMessages m' = returnMessages m /\
  turns m `prefix_of` turns m' /\
  exists response, outcome (Index.handle svc req m) = Returned response.
Proof.
  destruct req as [| body]; cbn [Index.handle].
  - repeat split; [ reflexivity | eexists; reflexivity ].
  - destruct (post_query_store svc body m)
      as [[Hsame (resp & Hout & _)] | (text & Hadded & resp & Hout & _)]; cbv zeta.
    + rewrite Hsame. repeat split; [ reflexivity | exists resp; exact Hout ].
    + rewrite Hadded. cbn [memoryKey returnMessages turns].
      repeat split; [ apply prefix_app_r; reflexivity | exists resp; exact Hout ].
Qed.

(** C9: the conversation memory is append-only.  After [GET /] or
    [POST /query], however the query went, the rounds stored before the request
    are a prefix of the rounds stored after it; the same holds after any
    sequence of requests served one after the other. *)
Theorem memory_is_append_only :
  (forall svc req m,
     turns m `prefix_of` turns (store (Index.handle svc req m))) /\
  (forall reqs m,
     turns m `prefix_of` turns (store (Index.serve reqs m))).
Proof.
  split.
  - intros svc req m. apply (handle_store svc req m).
  - intros reqs. induction reqs as [| [svc req] reqs IH]; intros m.
    + reflexivity.
    + cbn [Index.serve]. unfold bind at 1.
      destruct (handle_store svc req m) as (_ & _ & Hprefix & resp & Hout).
      destruct (Index.handle svc req m) as [[o m1] t1] eqn:Hrun.
      cbn [outcome store fst snd] in *. subst o.
      specialize (IH m1).
      unfold bind at 1.
      destruct (Index.serve reqs m1) as [[o2 m2] t2] eqn:Hrest.
      cbn [store fst snd] in IH.
      destruct o2; cbn; etransitivity; eassumption.
Qed.

(** ** Retrieval and history *)

(** The whole result of [conversationChain.invoke(input)], by the answers of
    the retriever and of the model.  The memory is read, never written. *)
Lemma conversationChain_run (svc : Index.Services) (input : JsValue) (m : BufferMemory) :
  Index.conversationChain_invoke svc input m =
  match Index.retriever_invoke svc (Index.property "question" input) with
  | Fail e => (Thrown e, m, [Called (RetrieverInvoke (Index.property "question" input))])
  | Ok docs =>
      match Index.format svc Index.chatPrompt
              {| Index.context := docs; Index.question := input;
                 Index.chat_history :=
                   Index.lookup_key "chat_history" (Index.loadMemoryVariables m) |} with
      | Fail e => (Thrown e, m, [Called (RetrieverInvoke (Index.property "question" input))])
      | Ok prompt =>
          match Index.llm_invoke svc prompt with
          | Ok text =>
              (Returned text, m,
               [Called (RetrieverInvoke (Index.property "question" input));
                Called (LLMInvoke prompt)])
          | Fail e =>
              (Thrown e, m,
               [Called (RetrieverInvoke (Index.property "question" input));
                Called (LLMInvoke prompt)])
          end
      end
  end.
Proof.
  unfold Index.conversationChain_invoke, Index.prepare. run.
  destruct (Index.retriever_invoke svc _) as [docs | e]; run; [ | reflexivity ].
  destruct (Index.format svc _ _) as [prompt | e]; run; [ | reflexivity ].
  destruct (Index.llm_invoke svc prompt); reflexivity.
Qed.

(** C5: retrieval depends on the new question only.  Whatever the memory
    holds, the chain calls the retriever once, with [input.question]; the first
    step of the chain does the same calls under any two memories and hands to
    the prompt the retrieved chunks, the input as it came and, in the
    [chat_history] slot alone, what the memory holds; the rendered prompt is
    fixed text around the three slots; and two runs of [POST /query] with the
    same body give the retriever the same input. *)
Theorem retrieval_depends_only_on_question
    (svc : Index.Services) (input : JsValue) (m1 m2 : BufferMemory) :
  Index.retriever_inputs (events (Index.conversationChain_invoke svc input m1))
  = [Index.property "question" input] /\
  Index.retriever_inputs (events (Index.conversationChain_invoke svc input m2))
  = [Index.property "question" input] /\
  events (Index.prepare svc input m1) = events (Index.prepare svc input m2) /\
  (forall m,
     outcome (Index.prepare svc input m) =
     match Index.retriever_invoke svc (Index.property "question" input) with
     | Ok docs =>
         Returned {| Index.context := docs; Index.question := input;
                     Index.chat_history :=
                       Index.lookup_key "chat_history" (Index.loadMemoryVariables m) |}
     | Fail e => Thrown e
     end) /\
  (exists before_context before_history before_question closing,
     forall values,
       Index.format svc Index.chatPrompt values =
       Ok (before_context +:+ Index.show_context svc (Index.context values)
           +:+ before_history +:+ Index.show_history svc (Index.chat_history values)
           +:+ before_question +:+ Index.show_question svc (Index.question values)
           +:+ closing)) /\
  (forall body,
     Index.retriever_inputs (events (Index.post_query svc body m1))
     = Index.retriever_inputs (events (Index.post_query svc body m2))).
Proof.
  assert (Hchain : forall m,
    Index.retriever_inputs (events (Index.conversationChain_invoke svc input m))
    = [Index.property "question" input]).
  { intros m. rewrite conversationChain_run.
    destruct (Index.retriever_invoke svc _); [ | reflexivity ].
    destruct (Index.format svc _ _) as [prompt | e]; [ | reflexivity ].
    destruct (Index.llm_invoke svc prompt); reflexivity. }
  assert (Hprepare : forall m,
    Index.prepare svc input m =
    match Index.retriever_invoke svc (Index.property "question" input) with
    | Ok docs =>
        (Returned {| Index.context := docs; Index.question := input;
                     Index.chat_history :=
                       Index.lookup_key "chat_history" (Index.loadMemoryVariables m) |},
         m, [Called (RetrieverInvoke (Index.property "question" input))])
    | Fail e => (Thrown e, m, [Called (RetrieverInvoke (Index.property "question" input))])
    end).
  { intros m. unfold Index.prepare. run.
    destruct (Index.retriever_invoke svc _); reflexivity. }
  split; [ apply Hchain | ]. split; [ apply Hchain | ].
  split; [ rewrite !Hprepare; destruct (Index.retriever_invoke svc _); reflexivity | ].
  split; [ intros m; rewrite Hprepare; destruct (Index.retriever_invoke svc _); reflexivity | ].
  split; [ do 4 eexists; intros values; reflexivity | ].
  intros body.
  assert (Hquery : forall m,
    Index.retriever_inputs (events (Index.post_query svc body m))
    = if truthy (get_property "question" body) then [get_property "question" body] else []).
  { intros m.
    destruct (truthy (get_property "question" body)) eqn:Htruthy.
    - destruct (Index.retriever_invoke svc (get_property "question" body)) as [docs | e] eqn:Hretr.
      + destruct (format_chatPrompt_total svc
                    {| Index.context := docs;
                       Index.question := JObject [("question", get_property "question" body)];
                       Index.chat_history :=
                         Index.lookup_key "chat_history" (Index.loadMemoryVariables m) |})
          as [prompt Hformat].
        destruct (Index.llm_invoke svc prompt) as [text | e] eqn:Hllm.
        * rewrite (post_query_answered svc body m docs prompt text Htruthy Hretr Hformat Hllm).
          reflexivity.
        * rewrite (post_query_model_failed svc body m docs prompt e Htruthy Hretr Hformat Hllm).
          reflexivity.
      + rewrite (post_query_retrieval_failed svc body m e Htruthy Hretr). reflexivity.
    - rewrite (post_query_rejected svc body m Htruthy). reflexivity. }
  rewrite !Hquery. reflexivity.
Qed.

(** ** The theorems at sample requests *)

Lemma query_answered_with_200_and_one_more_turn_witness :
  (exists text,
     outcome (Index.post_query (Samples.echo (Ok [Samples.policy_page]) Ok)
                (Samples.ask "Hur länge har jag öppet köp?") Samples.used_memory)
     = Returned {| Index.status := 200;
                   Index.payload := Index.SendJson (JObject [("answer", JString text)]) |}) /\
  length (turns (store (Index.post_query (Samples.echo (Ok [Samples.policy_page]) Ok)
                          (Samples.ask "Hur länge har jag öppet köp?") Samples.used_memory)))
  = 2.
Proof.
  destruct (query_answered_with_200_and_one_more_turn
              (Samples.echo (Ok [Samples.policy_page]) Ok)
              (Samples.ask "Hur länge har jag öppet köp?") Samples.used_memory
              [Samples.policy_page] _ _ eq_refl eq_refl eq_refl eq_refl)
    as (Hout & _ & Hlen).
  split; [ eexists; exact Hout | exact Hlen ].
Defined.

Lemma query_without_question_rejected_witness :
  Index.status <$> (match outcome (Index.post_query (Samples.echo (Ok [Samples.policy_page]) Ok)
                                     [] Samples.used_memory) with
                    | Returned response => Some response
                    | _ => None
                    end) = Some 400%Z /\
  store (Index.post_query (Samples.echo (Ok [Samples.policy_page]) Ok)
           (Samples.ask EmptyString) Samples.used_memory) = Samples.used_memory.
Proof.
  destruct (query_without_question_rejected
              (Samples.echo (Ok [Samples.policy_page]) Ok) [] Samples.used_memory eq_refl)
    as (Hout & _).
  destruct (query_without_question_rejected
              (Samples.echo (Ok [Samples.policy_page]) Ok) (Samples.ask EmptyString)
              Samples.used_memory eq_refl)
    as (_ & Hstore & _).
  split; [ rewrite Hout; reflexivity | exact Hstore ].
Defined.

Lemma query_failure_answered_with_500_witness :
  Index.status <$> (match outcome (Index.post_query
                                     (Samples.echo (Fail Samples.network_error) Ok)
                                     (Samples.ask "Kan jag byta en vara?") Samples.used_memory) with
                    | Returned response => Some response
                    | _ => None
                    end) = Some 500%Z /\
  Index.status <$> (match outcome (Index.post_query
                                     (Samples.echo (Ok [Samples.policy_page])
                                        (fun _ => Fail Samples.network_error))
                                     (Samples.ask "Kan jag byta en vara?") Samples.used_memory) with
                    | Returned response => Some response
                    | _ => None
                    end) = Some 500%Z.
Proof.
  destruct (query_failure_answered_with_500
              (Samples.echo (Fail Samples.network_error) Ok)
              (Samples.ask "Kan jag byta en vara?") Samples.used_memory
              Samples.network_error eq_refl (or_introl eq_refl))
    as (Hretrieval & _).
  destruct (query_failure_answered_with_500
              (Samples.echo (Ok [Samples.policy_page]) (fun _ => Fail Samples.network_error))
              (Samples.ask "Kan jag byta en vara?") Samples.used_memory
              Samples.network_error eq_refl
              (or_intror (ex_intro _ [Samples.policy_page]
                            (ex_intro _ _ (conj eq_refl (conj eq_refl eq_refl))))))
    as (Hmodel & _).
  split; [ rewrite Hretrieval | rewrite Hmodel ]; reflexivity.
Defined.

Lemma failed_query_leaves_memory_unchanged_witness :
  store (Index.post_query (Samples.echo (Ok [Samples.policy_page])
                             (fun _ => Fail Samples.network_error))
           (Samples.ask "Kan jag byta en vara?") Samples.used_memory)
  = Samples.used_memory.
Proof.
  apply (failed_query_leaves_memory_unchanged
           (Samples.echo (Ok [Samples.policy_page]) (fun _ => Fail Samples.network_error))
           (Samples.ask "Kan jag byta en vara?") Samples.used_memory
           {| Index.status := 500;
              Index.payload := Index.SendJson (JObject [("error", JString "Kunde inte generera svar. Försök igen senare.")]) |}).
  - reflexivity.
  - reflexivity.
Defined.

(** ** The text splitter *)

Section WindowsFacts.
Context {A : Type}.
Variables (size overlap : nat).
Hypothesis overlap_lt_size : overlap < size.

Local Abbreviation stride := (size - overlap).

(** One more stride of text is one more chunk. *)
Lemma ceil_div_stride (d : nat) :
  stride < d -> Chunker.ceil_div d stride = S (Chunker.ceil_div (d - stride) stride).
Proof.
  intros Hd. unfold Chunker.ceil_div.
  replace (d + stride - 1) with ((d - stride + stride - 1) + 1 * stride) by lia.
  rewrite Nat.div_add by lia. lia.
Qed.

Lemma ceil_div_within_stride (d : nat) :
  0 < d -> d <= stride -> Chunker.ceil_div d stride = 1.
Proof.
  intros Hpos Hle. unfold Chunker.ceil_div.
  symmetry. apply (Nat.div_unique _ _ 1 (d - 1)); lia.
Qed.

(** With enough fuel, the number of windows of a non-empty text: one when the
    text fits in a window, and one more for every stride beyond. *)
Lemma windows_count (fuel : nat) (text : list A) :
  0 < length text -> length text <= fuel ->
  length (Chunker.windows size overlap fuel text)
  = if (length text <=? size)%nat then 1
    else S (Chunker.ceil_div (length text - size) stride).
Proof.
  revert text. induction fuel as [| fuel IH]; intros text Hpos Hfuel; [ lia | ].
  cbn [Chunker.windows].
  destruct (Nat.leb_spec (length text) size) as [Hfit | Hlong]; [ reflexivity | ].
  cbn [length]. f_equal.
  rewrite IH; rewrite ?length_drop; try lia.
  destruct (Nat.leb_spec (length text - stride) size) as [Hlast | Hmore].
  - rewrite ceil_div_within_stride; lia.
  - rewrite (ceil_div_stride (length text - size)) by lia.
    do 2 f_equal. lia.
Qed.

(** Two neighbours among the windows: the first is a full window, and its
    last [overlap] units are the first [overlap] units of the second. *)
Lemma windows_adjacent (fuel : nat) (text : list A) (i : nat) (c1 c2 : list A) :
  Chunker.windows size overlap fuel text !! i = Some c1 ->
  Chunker.windows size overlap fuel text !! S i = Some c2 ->
  length c1 = size /\
  drop stride c1 = take overlap c2 /\
  length (take overlap c2) = overlap.
Proof.
  revert text i. induction fuel as [| fuel IH]; intros text i H1 H2; [ discriminate H1 | ].
  cbn [Chunker.windows] in H1, H2.
  destruct (Nat.leb_spec (length text) size) as [Hfit | Hlong].
  { destruct i; discriminate H2. }
  destruct i as [| i].
  - cbn in H1. injection H1 as <-.
    change ((take size text :: Chunker.windows size overlap fuel (drop stride text)) !! 1)
      with (Chunker.windows size overlap fuel (drop stride text) !! 0) in H2.
    assert (Hhead : take overlap c2 = take overlap (drop stride text) /\ overlap <= length c2).
    { destruct fuel as [| fuel]; [ discriminate H2 | ].
      cbn [Chunker.windows] in H2.
      destruct (Nat.leb_spec (length (drop stride text)) size) as [Hlast | Hmore];
        cbn in H2; injection H2 as <-.
      - split; [ reflexivity | ]. rewrite length_drop. lia.
      - split.
        + rewrite take_take. f_equal. lia.
        + rewrite length_take, length_drop. rewrite length_drop in Hmore. lia. }
    destruct Hhead as [Hhead Hlen].
    split; [ rewrite length_take; lia | ].
    split.
    + rewrite Hhead, take_drop_commute. do 2 f_equal. lia.
    + rewrite length_take. lia.
  - apply (IH (drop stride text) i); assumption.
Qed.

(** Every window is the text from a multiple of the stride on, cut to the
    window size. *)
Lemma windows_lookup (fuel : nat) (text : list A) (i : nat) (c : list A) :
  Chunker.windows size overlap fuel text !! i = Some c ->
  c = take size (drop (i * stride) text).
Proof.
  revert text i. induction fuel as [| fuel IH]; intros text i Hi; [ discriminate Hi | ].
  cbn [Chunker.windows] in Hi.
  destruct (Nat.leb_spec (length text) size) as [Hfit | Hlong].
  - destruct i as [| i]; [ | destruct i; discriminate Hi ].
    cbn in Hi. injection Hi as <-. cbn [Nat.mul drop]. symmetry. apply take_ge. exact Hfit.
  - destruct i as [| i].
    + cbn in Hi. injection Hi as <-. reflexivity.
    + apply IH in Hi. rewrite Hi, drop_drop. reflexivity.
Qed.

(** The last window ends where the text ends: no unit is left out. *)
Lemma windows_reach_end (fuel : nat) (text : list A) :
  0 < length text -> length text <= fuel ->
  exists c, last (Chunker.windows size overlap fuel text) = Some c /\
            c = drop (length text - length c) text.
Proof.
  revert text. induction fuel as [| fuel IH]; intros text Hpos Hfuel; [ lia | ].
  cbn [Chunker.windows].
  destruct (Nat.leb_spec (length text) size) as [Hfit | Hlong].
  - exists text. split; [ reflexivity | ]. rewrite Nat.sub_diag. reflexivity.
  - destruct (IH (drop stride text)) as (c & Hlast & Hc); rewrite ?length_drop; try lia.
    exists c. split.
    + rewrite last_cons, Hlast. reflexivity.
    + rewrite Hc at 1. rewrite drop_drop, length_drop. f_equal.
      assert (length c <= length text - stride).
      { rewrite Hc, length_drop, length_drop. lia. }
      lia.
Qed.

End WindowsFacts.

(** One text, with the window of 1000 and the overlap of 200 the script
    configures: a text of [L] units is split into [n] chunks with
    [n <= ceil (L / 800) <= n + 1], and of any two neighbouring chunks the
    last 200 units of the first are the first 200 units of the second. *)
Lemma chunk_count_and_overlap {A : Type} (text : list A) :
  length (Chunker.splitText (chunkSize ProcessPolicy.splitter)
            (chunkOverlap ProcessPolicy.splitter) text)
  <= Chunker.ceil_div (length text)
       (chunkSize ProcessPolicy.splitter - chunkOverlap ProcessPolicy.splitter)
  <= length (Chunker.splitText (chunkSize ProcessPolicy.splitter)
               (chunkOverlap ProcessPolicy.splitter) text) + 1 /\
  (forall i c1 c2,
     Chunker.splitText (chunkSize ProcessPolicy.splitter)
       (chunkOverlap ProcessPolicy.splitter) text !! i = Some c1 ->
     Chunker.splitText (chunkSize ProcessPolicy.splitter)
       (chunkOverlap ProcessPolicy.splitter) text !! S i = Some c2 ->
     drop (length c1 - chunkOverlap ProcessPolicy.splitter) c1
     = take (chunkOverlap ProcessPolicy.splitter) c2 /\
     length (take (chunkOverlap ProcessPolicy.splitter) c2)
     = chunkOverlap ProcessPolicy.splitter).
Proof.
  remember (chunkSize ProcessPolicy.splitter) as size eqn:Hsize.
  remember (chunkOverlap ProcessPolicy.splitter) as overlap eqn:Hoverlap.
  cbn in Hsize, Hoverlap.
  assert (Hlt : overlap < size) by lia.
  split.
  - destruct text as [| a text]; cbn [Chunker.splitText].
    + unfold Chunker.ceil_div. cbn [length]. 
      assert ((0 + (size - overlap) - 1) / (size - overlap) = 0) by (apply Nat.div_small; lia).
      lia.
    + rewrite (windows_count size overlap Hlt) by (cbn [length]; lia).
      set (L := length (a :: text)). assert (0 < L) by (subst L; cbn [length]; lia).
      clearbody L.
      destruct (Nat.leb_spec L size) as [Hfit | Hlong]; unfold Chunker.ceil_div.
      * assert (H1 : 1 <= (L + (size - overlap) - 1) / (size - overlap))
          by (apply Nat.div_le_lower_bound; lia).
        assert (H2 : (L + (size - overlap) - 1) / (size - overlap) < 3)
          by (apply Nat.Div0.div_lt_upper_bound; lia).
        lia.
      * assert (Hstep : (L + (size - overlap) - 1) / (size - overlap)
                        = (L - size + (size - overlap) - 1 + overlap) / (size - overlap) + 1).
        { rewrite <- Nat.div_add by lia. f_equal. lia. }
        assert (Hlow : (L - size + (size - overlap) - 1) / (size - overlap)
                       <= (L - size + (size - overlap) - 1 + overlap) / (size - overlap))
          by (apply Nat.Div0.div_le_mono; lia).
        assert (Hhigh : (L - size + (size - overlap) - 1 + overlap) / (size - overlap)
                        <= (L - size + (size - overlap) - 1) / (size - overlap) + 1).
        { rewrite <- Nat.div_add by lia. apply Nat.Div0.div_le_mono; lia. }
        lia.
  - intros i c1 c2 H1 H2.
    destruct text as [| a text]; cbn [Chunker.splitText] in H1, H2; [ discriminate H1 | ].
    destruct (windows_adjacent size overlap Hlt _ _ _ _ _ H1 H2) as (Hlen & Hshare & Hwidth).
    rewrite Hlen. split; assumption.
Qed.

Lemma chunk_count_and_overlap_witness :
  length (Chunker.splitText 1000 200 (Samples.text_of_length 2500)) = 3 /\
  drop 800 (seq 0 1000) = take 200 (seq 800 1000).
Proof.
  destruct (chunk_count_and_overlap (Samples.text_of_length 2500)) as [_ Hshare].
  destruct (Hshare 0 (seq 0 1000) (seq 800 1000)) as [Hsame _].
  - vm_compute. reflexivity.
  - vm_compute. reflexivity.
  - split; [ vm_compute; reflexivity | exact Hsame ].
Defined.

(** * More of the two programs *)

(** Runs a program through every answer its oracles can give. *)
Ltac split_on_answer :=
  match goal with
  | |- context [match ?x with _ => _ end] =>
      match type of x with
      | option JsError => idtac
      | Result _ => idtac
      | bool => idtac
      end;
      destruct x eqn:?
  end.

Ltac crunch :=
  run; rewrite ?upload_catch_run; run;
  repeat (split_on_answer; run; rewrite ?upload_catch_run; run).

Lemma truthy_env_get (env : gmap string string) (key : string) :
  truthy (env_get env key) = true <-> exists s, env !! key = Some s /\ s <> EmptyString.
Proof.
  unfold env_get. destruct (env !! key) as [s |].
  - destruct s as [| a s]; cbn; split.
    + discriminate.
    + intros (s' & Hs & Hne). injection Hs as <-. contradiction.
    + intros _. eexists. split; [ reflexivity | discriminate ].
    + reflexivity.
  - cbn. split; [ discriminate | intros (s & Hs & _); discriminate ].
Qed.

Lemma guard_is_incomplete (env : gmap string string) :
  negb (truthy (env_get env "GOOGLE_API_KEY"))
  || negb (truthy (env_get env "SUPABASE_URL"))
  || negb (truthy (env_get env "SUPABASE_SERVICE_ROLE_KEY"))
  = negb (config_complete env).
Proof.
  unfold config_complete, required_keys. cbn [forallb].
  destruct (truthy _), (truthy _), (truthy _); reflexivity.
Qed.

Lemma falsy_env_get (env : gmap string string) (key : string) :
  truthy (env_get env key) = false <->
  (env !! key = None \/ env !! key = Some EmptyString).
Proof.
  unfold env_get. destruct (env !! key) as [[| a s] |]; cbn; split; auto;
    try discriminate; intros [H | H]; discriminate H.
Qed.

(** The configuration is incomplete exactly when one of the three settings is
    absent or is the empty string. *)
Lemma config_complete_spec (env : gmap string string) :
  config_complete env = false <->
  exists key, key ∈ required_keys /\ (env !! key = None \/ env !! key = Some EmptyString).
Proof.
  unfold config_complete, required_keys. cbn [forallb]. split.
  - intros Hincomplete.
    destruct (truthy (env_get env "GOOGLE_API_KEY")) eqn:Hg;
      [ destruct (truthy (env_get env "SUPABASE_URL")) eqn:Hu;
        [ destruct (truthy (env_get env "SUPABASE_SERVICE_ROLE_KEY")) eqn:Hk;
          [ discriminate Hincomplete | ] | ] | ].
    + exists "SUPABASE_SERVICE_ROLE_KEY". split; [ set_solver | apply falsy_env_get, Hk ].
    + exists "SUPABASE_URL". split; [ set_solver | apply falsy_env_get, Hu ].
    + exists "GOOGLE_API_KEY". split; [ set_solver | apply falsy_env_get, Hg ].
  - intros (key & Hin & Hkey). apply falsy_env_get in Hkey.
    rewrite !elem_of_cons in Hin.
    destruct Hin as [-> | [-> | [-> | Hin]]]; [ | | | inversion Hin ]; rewrite Hkey.
    + reflexivity.
    + apply andb_false_r.
    + rewrite andb_false_r. apply andb_false_r.
Qed.

(** What the ingestion function does when the configuration is complete:
    it never ends the process. *)
Lemma ingestion_never_exits_when_configured (env : gmap string string) (w : ProcessPolicy.World) :
  config_complete env = true ->
  forall code, outcome (ProcessPolicy.processAndEmbedPolicy env w tt) <> Exited code.
Proof.
  intros Hcomplete code. unfold ProcessPolicy.processAndEmbedPolicy. cbv zeta.
  rewrite guard_is_incomplete, Hcomplete.
  unfold ProcessPolicy.upload.
  crunch; discriminate.
Qed.

(** X1: the ingestion script ends with exit status 1 exactly when one of the
    three required settings is absent or empty.  In every other run, whatever
    the loader, the splitter, the constructors or the vector store answer, it
    ends with exit status 0. *)
Theorem ingestion_exit_status (env : gmap string string) (w : ProcessPolicy.World) :
  (exit_status (outcome (ProcessPolicy.script env w tt)) = 1%Z <->
   exists key, key ∈ required_keys /\ (env !! key = None \/ env !! key = Some EmptyString)) /\
  (exit_status (outcome (ProcessPolicy.script env w tt)) = 0%Z \/
   exit_status (outcome (ProcessPolicy.script env w tt)) = 1%Z).
Proof.
  rewrite <- config_complete_spec.
  assert (Hstatus : exit_status (outcome (ProcessPolicy.script env w tt))
                    = if config_complete env then 0%Z else 1%Z).
  { destruct (config_complete env) eqn:Hcomplete.
    - pose proof (ingestion_never_exits_when_configured env w Hcomplete) as Hno.
      unfold ProcessPolicy.script. run.
      destruct (ProcessPolicy.processAndEmbedPolicy env w tt) as [[o s] t].
      cbn [outcome fst] in Hno. destruct o; [ reflexivity | reflexivity | ].
      exfalso. apply (Hno code). reflexivity.
    - unfold ProcessPolicy.script, ProcessPolicy.processAndEmbedPolicy. cbv zeta.
      rewrite guard_is_incomplete, Hcomplete. reflexivity. }
  rewrite Hstatus. destruct (config_complete env); split; try (split; [ discriminate | discriminate ]);
    auto; split; auto; discriminate.
Qed.

Ltac not_in_list :=
  let Hin := fresh "Hin" in
  let Heq := fresh "Heq" in
  intros Hin;
  repeat (apply elem_of_cons in Hin as [Heq | Hin]; [ discriminate Heq | ]);
  inversion Hin.

(** X2: when the ingestion function rejects (a constructor, the loader or the
    splitter failed), nothing has been uploaded; the script prints that error
    and nothing after it, never prints the closing message, and still ends as
    a run that returned. *)
Theorem rejected_ingestion_uploads_nothing
    (env : gmap string string) (w : ProcessPolicy.World) (e : JsError) :
  outcome (ProcessPolicy.processAndEmbedPolicy env w tt) = Thrown e ->
  upload_calls (events (ProcessPolicy.script env w tt)) = [] /\
  last (events (ProcessPolicy.script env w tt)) = Some (ConsoleError [LError e]) /\
  (ConsoleLog [LText ProcessPolicy.done_message] ∉ events (ProcessPolicy.script env w tt)) /\
  outcome (ProcessPolicy.script env w tt) = Returned tt.
Proof.
  unfold ProcessPolicy.script, ProcessPolicy.processAndEmbedPolicy, ProcessPolicy.upload.
  cbv zeta. crunch; intros Hthrown; try discriminate Hthrown;
    injection Hthrown as ->;
    (split; [ reflexivity | split; [ reflexivity | split; [ not_in_list | reflexivity ] ] ]).
Qed.

Lemma rejected_ingestion_uploads_nothing_witness :
  upload_calls
    (events (ProcessPolicy.script Samples.full_env
               {| ProcessPolicy.dirname := "/srv/backend";
                  ProcessPolicy.path_join := fun a b => a +:+ "/" +:+ b;
                  ProcessPolicy.ctor_fails := Samples.no_failure;
                  ProcessPolicy.loader_load := fun _ => Fail {| message := "ENOENT: no such file" |};
                  ProcessPolicy.splitDocuments := fun cfg docs => Ok docs;
                  ProcessPolicy.fromDocuments := fun _ _ => Ok tt |} tt)) = [].
Proof.
  apply (rejected_ingestion_uploads_nothing Samples.full_env _ {| message := "ENOENT: no such file" |}).
  reflexivity.
Defined.

(** X3: when the configuration is complete and every library call works, the
    pages the loader returned go to the splitter, the chunks the splitter
    returned go to the vector store in one upload, to the table "documents"
    with the search function "match_documents"; the run prints the success
    message and then the closing message, prints nothing on the error stream,
    and returns. *)
Theorem successful_ingestion
    (env : gmap string string) (w : ProcessPolicy.World) (docs chunks : list Document) :
  config_complete env = true ->
  (forall c, ProcessPolicy.ctor_fails w c = None) ->
  ProcessPolicy.loader_load w (ProcessPolicy.pdfPath w) = Ok docs ->
  ProcessPolicy.splitDocuments w ProcessPolicy.splitter docs = Ok chunks ->
  ProcessPolicy.fromDocuments w chunks (ProcessPolicy.target env) = Ok tt ->
  let r := ProcessPolicy.processAndEmbedPolicy env w tt in
  outcome r = Returned tt /\
  split_calls (events r) = [docs] /\
  upload_calls (events r) = [(chunks, ProcessPolicy.target env)] /\
  tableName (ProcessPolicy.target env) = "documents" /\
  queryName (ProcessPolicy.target env) = "match_documents" /\
  error_output (events r) = [] /\
  (exists before,
     events r = (before ++ [Called (FromDocuments chunks (ProcessPolicy.target env));
                            ConsoleLog [LText ProcessPolicy.upload_ok_message];
                            ConsoleLog [LText ProcessPolicy.done_message]])%list).
Proof.
  intros Hcomplete Hctor Hload Hsplit Hwrite r. subst r.
  unfold ProcessPolicy.processAndEmbedPolicy, ProcessPolicy.upload. cbv zeta.
  rewrite guard_is_incomplete, Hcomplete.
  run. rewrite !Hctor. rewrite Hload. run. rewrite Hsplit. run. rewrite Hwrite. run.
  repeat (split; [ reflexivity | ]).
  eexists (_ :: _ :: _ :: _ :: _ :: _ :: _ :: _ :: _ :: _ :: _ :: _ :: _ :: []).
  reflexivity.
Qed.

Lemma successful_ingestion_witness :
  upload_calls (events (ProcessPolicy.processAndEmbedPolicy Samples.full_env
                          (Samples.world (Ok tt)) tt))
  = [(Chunker.splitDocuments ProcessPolicy.splitter [Samples.policy_page],
      ProcessPolicy.target Samples.full_env)].
Proof.
  apply (successful_ingestion Samples.full_env (Samples.world (Ok tt))
           [Samples.policy_page]
           (Chunker.splitDocuments ProcessPolicy.splitter [Samples.policy_page])
           eq_refl (fun _ => eq_refl) eq_refl eq_refl eq_refl).
Defined.

(** X4: a run of the ingestion script uploads at most once, whatever the
    libraries answer (a failed upload is not tried again); and when it
    uploads, the loader and the splitter had both succeeded and what is
    uploaded is the splitter's output for the loader's pages, sent to the
    table the environment names. *)
Theorem ingestion_uploads_at_most_once (env : gmap string string) (w : ProcessPolicy.World) :
  upload_calls (events (ProcessPolicy.script env w tt)) = [] \/
  exists docs chunks,
    ProcessPolicy.loader_load w (ProcessPolicy.pdfPath w) = Ok docs /\
    ProcessPolicy.splitDocuments w ProcessPolicy.splitter docs = Ok chunks /\
    config_complete env = true /\
    upload_calls (events (ProcessPolicy.script env w tt)) = [(chunks, ProcessPolicy.target env)].
Proof.
  destruct (config_complete env) eqn:Hcomplete.
  - unfold ProcessPolicy.script, ProcessPolicy.processAndEmbedPolicy, ProcessPolicy.upload.
    cbv zeta. rewrite guard_is_incomplete, Hcomplete.
    crunch; try (left; reflexivity);
      right; do 2 eexists;
      (split; [ reflexivity | split; [ eassumption | split; reflexivity ] ]).
  - left. unfold ProcessPolicy.script, ProcessPolicy.processAndEmbedPolicy.
    cbv zeta. rewrite guard_is_incomplete, Hcomplete. reflexivity.
Qed.

Lemma prefix_spec (needle hay : string) :
  String.prefix needle hay = true <-> exists rest, hay = needle +:+ rest.
Proof.
  revert hay. induction needle as [| a needle IH]; intros hay.
  - split; [ intros _; exists hay; reflexivity | intros _; destruct hay; reflexivity ].
  - destruct hay as [| b hay]; cbn.
    + split; [ discriminate | intros [rest Hrest]; discriminate Hrest ].
    + destruct (ascii_dec a b) as [-> | Hne].
      * rewrite IH. split; intros [rest Hrest]; exists rest.
        -- rewrite Hrest. reflexivity.
        -- injection Hrest as ->. reflexivity.
      * split; [ discriminate | ].
        intros [rest Hrest]. injection Hrest as Hab _. congruence.
Qed.

(** [includes] finds the needle exactly when the text is some text, the
    needle, and some more text. *)
Lemma includes_spec (needle hay : string) :
  includes needle hay = true <->
  exists before rest, hay = before +:+ needle +:+ rest.
Proof.
  induction hay as [| a hay IH]; cbn [includes].
  - rewrite orb_false_r, prefix_spec. split.
    + intros [rest Hrest]. exists EmptyString, rest. exact Hrest.
    + intros (before & rest & Hhay). destruct before; [ | discriminate Hhay ].
      exists rest. exact Hhay.
  - rewrite orb_true_iff, prefix_spec, IH. split.
    + intros [[rest Hrest] | (before & rest & Hhay)].
      * exists EmptyString, rest. exact Hrest.
      * exists (String a before), rest. rewrite Hhay. reflexivity.
    + intros (before & rest & Hhay). destruct before as [| b before].
      * left. exists rest. exact Hhay.
      * right. injection Hhay as -> ->. exists before, rest. reflexivity.
Qed.

(** X5: a failed upload is always reported with the error itself; the four
    hints about the vector dimension follow exactly when the message of the
    error contains the phrase "vector dimension mismatch" somewhere, and
    otherwise nothing follows.  The call is made once either way. *)
Theorem dimension_hints_exactly_for_mismatch
    (env : gmap string string) (w : ProcessPolicy.World)
    (chunks : list Document) (e : JsError) :
  ProcessPolicy.fromDocuments w chunks (ProcessPolicy.target env) = Fail e ->
  ((exists before rest, message e = before +:+ "vector dimension mismatch" +:+ rest) ->
   events (ProcessPolicy.upload env w chunks tt)
   = Called (FromDocuments chunks (ProcessPolicy.target env))
     :: ConsoleError [LText ProcessPolicy.upload_failed_message; LError e]
     :: ProcessPolicy.dimension_hints) /\
  (~ (exists before rest, message e = before +:+ "vector dimension mismatch" +:+ rest) ->
   events (ProcessPolicy.upload env w chunks tt)
   = [Called (FromDocuments chunks (ProcessPolicy.target env));
      ConsoleError [LText ProcessPolicy.upload_failed_message; LError e]]) /\
  length (error_output ProcessPolicy.dimension_hints) = 4.
Proof.
  intros Hwrite. rewrite (upload_run_failed env w chunks e Hwrite).
  cbn [events snd]. rewrite <- includes_spec.
  destruct (includes "vector dimension mismatch" (message e)).
  - split; [ reflexivity | ]. split; [ intros Hno; exfalso; apply Hno; reflexivity | reflexivity ].
  - split; [ discriminate | ]. split; reflexivity.
Qed.

Lemma dimension_hints_exactly_for_mismatch_witness :
  length (events (ProcessPolicy.upload Samples.full_env
                    (Samples.world (Fail Samples.dimension_error)) [Samples.policy_page] tt)) = 6
  /\
  length (events (ProcessPolicy.upload Samples.full_env
                    (Samples.world (Fail Samples.network_error)) [Samples.policy_page] tt)) = 2.
Proof.
  destruct (dimension_hints_exactly_for_mismatch Samples.full_env
              (Samples.world (Fail Samples.dimension_error)) [Samples.policy_page]
              Samples.dimension_error eq_refl) as (Hwith & _ & _).
  destruct (dimension_hints_exactly_for_mismatch Samples.full_env
              (Samples.world (Fail Samples.network_error)) [Samples.policy_page]
              Samples.network_error eq_refl) as (_ & Hwithout & _).
  split.
  - rewrite Hwith; [ reflexivity | ].
    exists "Error inserting: expected 1536 dimensions, not 768 (", ")". reflexivity.
  - rewrite Hwithout; [ reflexivity | ].
    intros Hphrase. apply includes_spec in Hphrase. discriminate Hphrase.
Defined.

(** ** Start-up of the service *)


(** X7: when the bootstrap does not return, a constructor has thrown: the
    error is printed on the error stream as the last thing, the process exits
    with status 1, the component that failed is not among those built, and
    the chain is left unassigned. *)
Theorem failed_bootstrap_exits
    (googleApiKey supabaseUrl supabaseServiceRoleKey : JsValue)
    (fails : Construction -> option JsError) (g : Index.Globals) :
  let r := Index.initializeAIComponents googleApiKey supabaseUrl supabaseServiceRoleKey fails g in
  outcome r <> Returned tt ->
  outcome r = Exited 1 /\
  Index.conversationChain (store r) = Index.conversationChain g /\
  exists c e,
    fails c = Some e /\
    last (events r)
    = Some (ConsoleError [LText "FEL vid initialisering av AI-komponenter:"; LError e]) /\
    c ∉ Index.constructions (events r).
Proof.
  intros r. subst r. unfold Index.initializeAIComponents.
  crunch; intros Hfailed; try (exfalso; apply Hfailed; reflexivity);
    (split; [ reflexivity | split; [ reflexivity | ] ]);
    do 2 eexists; (split; [ eassumption | split; [ reflexivity | not_in_list ] ]).
Qed.

Lemma failed_bootstrap_exits_witness :
  outcome (Index.initializeAIComponents (JString "g-key") (JString "not a url") (JString "s-key")
             (fun c => match c with
                       | CreateClient _ _ => Some {| message := "Invalid URL" |}
                       | _ => None
                       end)
             Index.no_globals) = Exited 1.
Proof.
  apply (failed_bootstrap_exits (JString "g-key") (JString "not a url") (JString "s-key")
           (fun c => match c with
                     | CreateClient _ _ => Some {| message := "Invalid URL" |}
                     | _ => None
                     end)
           Index.no_globals).
  discriminate.
Defined.

(** X8: the service searches where the ingestion script writes.  When the
    service comes up, its vector store is the very target of the upload under
    the same environment (same embeddings model and key, same client, same
    table and search function), and the retriever is built over it with
    k = 3. *)
Theorem service_reads_what_ingestion_writes
    (env : gmap string string) (fails : Construction -> option JsError)
    (listens : JsValue -> option JsError) (g : Index.Globals) :
  outcome (Index.main env fails listens g) = Returned tt ->
  Index.vectorStore (store (Index.main env fails listens g)) = Some (ProcessPolicy.target env) /\
  Index.retriever (store (Index.main env fails listens g))
  = Some {| ret_store := ProcessPolicy.target env; k := 3 |}.
Proof.
  unfold Index.main, Index.initializeAIComponents. cbv zeta.
  rewrite guard_is_incomplete.
  destruct (config_complete env); [ | discriminate ].
  crunch; intros Hreturned; try discriminate Hreturned.
  split; reflexivity.
Qed.

Lemma service_reads_what_ingestion_writes_witness :
  Index.vectorStore (store (Index.main Samples.full_env Samples.no_failure Samples.port_free Index.no_globals))
  = Some (ProcessPolicy.target Samples.full_env).
Proof.
  apply (service_reads_what_ingestion_writes Samples.full_env Samples.no_failure
           Samples.port_free Index.no_globals).
  reflexivity.
Defined.

(** X9: the port.  When the service comes up it listens on the value of PORT
    when that is set to a non-empty text, and on 5000 when PORT is absent or
    empty; the last line it prints names the same port. *)
Theorem service_port
    (env : gmap string string) (fails : Construction -> option JsError)
    (listens : JsValue -> option JsError) (g : Index.Globals) :
  outcome (Index.main env fails listens g) = Returned tt ->
  exists port text,
    List.filter is_route (events (Index.main env fails listens g))
    = [AppGet "/"; AppPost "/query"; AppListen port] /\
    last (events (Index.main env fails listens g))
    = Some (ConsoleLog [LText ("Server körs på port " +:+ text)]) /\
    ((env !! "PORT" = None \/ env !! "PORT" = Some EmptyString) ->
     port = JNumber 5000 /\ text = "5000") /\
    (forall s, s <> EmptyString -> env !! "PORT" = Some s -> port = JString s /\ text = s).
Proof.
  unfold Index.main, Index.initializeAIComponents. cbv zeta.
  rewrite guard_is_incomplete.
  destruct (config_complete env); [ | discriminate ].
  crunch; intros Hreturned; try discriminate Hreturned.
  exists (Index.PORT env), (Index.port_text env).
  split; [ reflexivity | ]. split; [ reflexivity | ]. split.
  - unfold Index.PORT, Index.port_text, Index.PORT, env_get.
    intros [-> | ->]; split; reflexivity.
  - intros s Hne Hs. unfold Index.PORT, Index.port_text, Index.PORT, env_get. rewrite Hs.
    destruct s as [| a s]; [ contradiction | ]. split; reflexivity.
Qed.

Lemma service_port_witness :
  exists text,
    last (events (Index.main (<["PORT" := "8080"]> Samples.full_env) Samples.no_failure Samples.port_free
                    Index.no_globals))
    = Some (ConsoleLog [LText ("Server körs på port " +:+ text)]) /\ text = "8080".
Proof.
  assert (Hup : outcome (Index.main (<["PORT" := "8080"]> Samples.full_env) Samples.no_failure Samples.port_free
                            Index.no_globals) = Returned tt) by (vm_compute; reflexivity).
  destruct (service_port (<["PORT" := "8080"]> Samples.full_env) Samples.no_failure
              Samples.port_free Index.no_globals Hup)
    as (port & text & _ & Hlast & _ & Hset).
  exists text. split; [ exact Hlast | ].
  apply (Hset "8080"); [ discriminate | vm_compute; reflexivity ].
Defined.

(** ** Queries, one and many *)

(** The handler on a parsed object body: it answers with status 200, 400 or
    500; 400 exactly when the question fails the handler's test; with 200 the
    body carries the text stored as the answer of the new round; with any
    other status the memory is the one from before. *)
Lemma post_query_answers
    (svc : Index.Services) (body : list (string * JsValue)) (m : BufferMemory) :
  exists response,
    outcome (Index.post_query svc body m) = Returned response /\
    (Index.status response = 200%Z \/ Index.status response = 400%Z \/
     Index.status response = 500%Z) /\
    (Index.status response = 400%Z <-> truthy (get_property "question" body) = false) /\
    (Index.status response = 200%Z ->
     exists text,
       Index.payload response = Index.SendJson (JObject [("answer", JString text)]) /\
       turns (store (Index.post_query svc body m))
       = (turns m ++ [{| input := get_property "question" body; output := text |}])%list) /\
    (Index.status response <> 200%Z -> store (Index.post_query svc body m) = m).
Proof.
  destruct (truthy (get_property "question" body)) eqn:Htruthy.
  - destruct (Index.retriever_invoke svc (get_property "question" body)) as [docs | e] eqn:Hretr.
    + destruct (format_chatPrompt_total svc
                  {| Index.context := docs;
                     Index.question := JObject [("question", get_property "question" body)];
                     Index.chat_history :=
                       Index.lookup_key "chat_history" (Index.loadMemoryVariables m) |})
        as [prompt Hformat].
      destruct (Index.llm_invoke svc prompt) as [text | e] eqn:Hllm.
      * rewrite (post_query_answered svc body m docs prompt text Htruthy Hretr Hformat Hllm).
        eexists. split; [ reflexivity | ]. cbn.
        split; [ auto | ]. split; [ split; discriminate | ].
        split; [ intros _; exists text; split; reflexivity | intros Hne; contradiction ].
      * rewrite (post_query_model_failed svc body m docs prompt e Htruthy Hretr Hformat Hllm).
        eexists. split; [ reflexivity | ]. cbn.
        split; [ auto | ]. split; [ split; discriminate | ].
        split; [ discriminate | reflexivity ].
    + rewrite (post_query_retrieval_failed svc body m e Htruthy Hretr).
      eexists. split; [ reflexivity | ]. cbn.
      split; [ auto | ]. split; [ split; discriminate | ].
      split; [ discriminate | reflexivity ].
  - rewrite (post_query_rejected svc body m Htruthy).
    eexists. split; [ reflexivity | ]. cbn.
    split; [ auto | ]. split; [ split; reflexivity | ].
    split; [ discriminate | reflexivity ].
Qed.

(** X14: a query calls the retriever at most once and the model at most once
    (nothing is tried again by the handler), and the model only after the
    retriever has answered.  The prompt the model gets is the template filled
    with the retrieved chunks, the history read from the memory, and, in the
    question slot, the input object of the chain, [{question}], rather than
    the question text. *)
Theorem query_calls
    (svc : Index.Services) (body : list (string * JsValue)) (m : BufferMemory) :
  length (Index.retriever_inputs (events (Index.post_query svc body m))) <= 1 /\
  (Index.llm_inputs (events (Index.post_query svc body m)) = [] \/
   exists docs prompt,
     Index.retriever_invoke svc (get_property "question" body) = Ok docs /\
     Index.format svc Index.chatPrompt
       {| Index.context := docs;
          Index.question := JObject [("question", get_property "question" body)];
          Index.chat_history := Index.lookup_key "chat_history" (Index.loadMemoryVariables m) |}
     = Ok prompt /\
     Index.llm_inputs (events (Index.post_query svc body m)) = [prompt]).
Proof.
  destruct (truthy (get_property "question" body)) eqn:Htruthy.
  - destruct (Index.retriever_invoke svc (get_property "question" body)) as [docs | e] eqn:Hretr.
    + destruct (format_chatPrompt_total svc
                  {| Index.context := docs;
                     Index.question := JObject [("question", get_property "question" body)];
                     Index.chat_history :=
                       Index.lookup_key "chat_history" (Index.loadMemoryVariables m) |})
        as [prompt Hformat].
      destruct (Index.llm_invoke svc prompt) as [text | e] eqn:Hllm.
      * rewrite (post_query_answered svc body m docs prompt text Htruthy Hretr Hformat Hllm).
        split; [ cbn; lia | ]. right. exists docs, prompt. repeat split. exact Hformat.
      * rewrite (post_query_model_failed svc body m docs prompt e Htruthy Hretr Hformat Hllm).
        split; [ cbn; lia | ]. right. exists docs, prompt. repeat split. exact Hformat.
    + rewrite (post_query_retrieval_failed svc body m e Htruthy Hretr).
      split; [ cbn; lia | left; reflexivity ].
  - rewrite (post_query_rejected svc body m Htruthy).
    split; [ cbn; lia | left; reflexivity ].
Qed.

Lemma chat_messages_snoc (m : BufferMemory) (q : JsValue) (text : string) :
  Index.chat_messages
    {| memoryKey := memoryKey m; returnMessages := returnMessages m;
       turns := (turns m ++ [{| input := q; output := text |}])%list |}
  = (Index.chat_messages m ++ [HumanMessage q; AIMessage text])%list.
Proof. unfold Index.chat_messages. cbn [turns]. rewrite flat_map_app. reflexivity. Qed.

(** X11: history carries over.  After a query that was answered with status
    200, the history the memory hands out is the earlier history followed by
    the question as a human message and the answer as an AI message; and a
    next query whose retrieval succeeds sends the model one prompt, the
    template filled with exactly that history. *)
Theorem history_reaches_next_prompt
    (svc1 svc2 : Index.Services) (body1 body2 : list (string * JsValue)) (m : BufferMemory)
    (text1 : string) (docs2 : list Document) :
  memoryKey m = "chat_history" ->
  outcome (Index.post_query svc1 body1 m)
  = Returned {| Index.status := 200;
                Index.payload := Index.SendJson (JObject [("answer", JString text1)]) |} ->
  truthy (get_property "question" body2) = true ->
  Index.retriever_invoke svc2 (get_property "question" body2) = Ok docs2 ->
  Index.chat_messages (store (Index.post_query svc1 body1 m))
  = (Index.chat_messages m
     ++ [HumanMessage (get_property "question" body1); AIMessage text1])%list /\
  exists prompt2,
    Index.format svc2 Index.chatPrompt
      {| Index.context := docs2;
         Index.question := JObject [("question", get_property "question" body2)];
         Index.chat_history :=
           Some (Index.chat_messages m
                 ++ [HumanMessage (get_property "question" body1); AIMessage text1])%list |}
    = Ok prompt2 /\
    Index.llm_inputs (events (Index.post_query svc2 body2 (store (Index.post_query svc1 body1 m))))
    = [prompt2].
Proof.
  intros Hkey Hfirst Htruthy2 Hretr2.
  assert (Hstore : store (Index.post_query svc1 body1 m)
                   = {| memoryKey := memoryKey m; returnMessages := returnMessages m;
                        turns := (turns m ++ [{| input := get_property "question" body1;
                                                 output := text1 |}])%list |}).
  { revert Hfirst.
    destruct (truthy (get_property "question" body1)) eqn:Htruthy1;
      [ | rewrite (post_query_rejected svc1 body1 m Htruthy1); discriminate ].
    destruct (Index.retriever_invoke svc1 (get_property "question" body1))
      as [docs | e] eqn:Hretr;
      [ | rewrite (post_query_retrieval_failed svc1 body1 m e Htruthy1 Hretr); discriminate ].
    destruct (format_chatPrompt_total svc1
                {| Index.context := docs;
                   Index.question := JObject [("question", get_property "question" body1)];
                   Index.chat_history :=
                     Index.lookup_key "chat_history" (Index.loadMemoryVariables m) |})
      as [prompt Hformat].
    destruct (Index.llm_invoke svc1 prompt) as [text | e] eqn:Hllm;
      [ | rewrite (post_query_model_failed svc1 body1 m docs prompt e Htruthy1 Hretr Hformat Hllm);
          discriminate ].
    rewrite (post_query_answered svc1 body1 m docs prompt text Htruthy1 Hretr Hformat Hllm).
    cbn [outcome store fst snd]. intros Heq. injection Heq as ->. reflexivity. }
  rewrite Hstore, chat_messages_snoc. split; [ reflexivity | ].
  set (m' := {| memoryKey := memoryKey m; returnMessages := returnMessages m;
                turns := (turns m ++ [{| input := get_property "question" body1;
                                         output := text1 |}])%list |}).
  assert (Hslot : Index.lookup_key "chat_history" (Index.loadMemoryVariables m')
                  = Some (Index.chat_messages m
                          ++ [HumanMessage (get_property "question" body1); AIMessage text1])%list).
  { unfold Index.loadMemoryVariables. subst m'. rewrite chat_messages_snoc.
    cbn [memoryKey Index.lookup_key]. rewrite Hkey. reflexivity. }
  destruct (format_chatPrompt_total svc2
              {| Index.context := docs2;
                 Index.question := JObject [("question", get_property "question" body2)];
                 Index.chat_history := Index.lookup_key "chat_history" (Index.loadMemoryVariables m') |})
    as [prompt2 Hformat2].
  exists prompt2. split; [ rewrite <- Hslot; exact Hformat2 | ].
  destruct (Index.llm_invoke svc2 prompt2) as [text2 | e] eqn:Hllm2.
  - rewrite (post_query_answered svc2 body2 m' docs2 prompt2 text2 Htruthy2 Hretr2 Hformat2 Hllm2).
    reflexivity.
  - rewrite (post_query_model_failed svc2 body2 m' docs2 prompt2 e Htruthy2 Hretr2 Hformat2 Hllm2).
    reflexivity.
Qed.

Lemma history_reaches_next_prompt_witness :
  Index.chat_messages
    (store (Index.post_query (Samples.echo (Ok [Samples.policy_page]) (fun _ => Ok "Inom 30 dagar."))
              (Samples.ask "Hur länge har jag öppet köp?") Samples.fresh_memory))
  = [HumanMessage (JString "Hur länge har jag öppet köp?"); AIMessage "Inom 30 dagar."].
Proof.
  destruct (history_reaches_next_prompt
              (Samples.echo (Ok [Samples.policy_page]) (fun _ => Ok "Inom 30 dagar."))
              (Samples.echo (Ok [Samples.policy_page]) Ok)
              (Samples.ask "Hur länge har jag öppet köp?") (Samples.ask "Och byten?")
              Samples.fresh_memory "Inom 30 dagar." [Samples.policy_page]
              eq_refl eq_refl eq_refl eq_refl) as [Hhistory _].
  exact Hhistory.
Defined.

(** What one request does to the number of rounds. *)
Lemma handle_turns (svc : Index.Services) (req : Index.Request) (m : BufferMemory) :
  exists response,
    outcome (Index.handle svc req m) = Returned response /\
    memoryKey (store (Index.handle svc req m)) = memoryKey m /\
    length (turns (store (Index.handle svc req m)))
    = length (turns m) + answered [(svc, req)] [response].
Proof.
  destruct req as [| body]; cbn [Index.handle].
  - eexists. split; [ reflexivity | ]. split; [ reflexivity | ]. cbn. lia.
  - destruct (post_query_store svc body m)
      as [(Hsame & response & Hout & Hne) | (text & Hadded & response & Hout & Hok)];
      cbv zeta in *; exists response; (split; [ exact Hout | ]).
    + rewrite Hsame. split; [ reflexivity | ]. cbn [answered].
      destruct (Z.eqb_spec (Index.status response) 200); [ contradiction | lia ].
    + rewrite Hadded. cbn [memoryKey turns answered]. split; [ reflexivity | ].
      rewrite length_app, Hok. cbn. lia.
Qed.

(** Requests served in a row: one response each, the key of the memory kept,
    one round more per answered query. *)
Lemma serve_run (reqs : list (Index.Services * Index.Request)) (m : BufferMemory) :
  exists responses,
    outcome (Index.serve reqs m) = Returned responses /\
    length responses = length reqs /\
    memoryKey (store (Index.serve reqs m)) = memoryKey m /\
    length (turns (store (Index.serve reqs m)))
    = length (turns m) + answered reqs responses.
Proof.
  revert m. induction reqs as [| [svc req] reqs IH]; intros m.
  - exists []. repeat split. cbn. lia.
  - destruct (handle_turns svc req m) as (response & Hout & Hkey & Hlen).
    destruct (Index.handle svc req m) as [[o m1] t1] eqn:Hhandle.
    cbn [outcome store fst snd] in Hout, Hkey, Hlen. subst o.
    destruct (IH m1) as (responses & Hrest & Hcount & Hkey' & Hlen').
    destruct (Index.serve reqs m1) as [[o2 m2] t2] eqn:Hserve.
    cbn [outcome store fst snd] in Hrest, Hkey', Hlen'. subst o2.
    assert (Hrun : Index.serve ((svc, req) :: reqs) m
                   = (Returned (response :: responses), m2, (t1 ++ (t2 ++ []))%list)).
    { cbn [Index.serve]. unfold bind, ret. rewrite Hhandle. cbn beta iota.
      rewrite Hserve. reflexivity. }
    exists (response :: responses). rewrite Hrun. cbn [outcome store fst snd length].
    split; [ reflexivity | ]. split; [ lia | ]. split; [ congruence | ].
    rewrite Hlen', Hlen. destruct req; cbn [answered]; lia.
Qed.


(** X13: the memory the bootstrap builds is empty and is read under the key
    the chain asks for: when the service comes up, then after any requests
    served from that memory, the history handed to the prompt is there (never
    undefined) and is the list of the messages stored so far. *)
Theorem bootstrap_memory_feeds_history
    (env : gmap string string) (fails : Construction -> option JsError)
    (listens : JsValue -> option JsError) (g : Index.Globals) :
  outcome (Index.main env fails listens g) = Returned tt ->
  exists mem,
    Index.memory (store (Index.main env fails listens g)) = Some mem /\
    turns mem = [] /\
    forall reqs,
      Index.lookup_key "chat_history" (Index.loadMemoryVariables (store (Index.serve reqs mem)))
      = Some (Index.chat_messages (store (Index.serve reqs mem))).
Proof.
  intros Hreturned.
  assert (Hmem : Index.memory (store (Index.main env fails listens g))
                 = Some {| memoryKey := "chat_history"; returnMessages := true; turns := [] |}).
  { revert Hreturned. unfold Index.main, Index.initializeAIComponents. cbv zeta.
    rewrite guard_is_incomplete.
    destruct (config_complete env); [ | discriminate ].
    crunch; intros Hreturned; try discriminate Hreturned. reflexivity. }
  eexists. split; [ exact Hmem | ]. split; [ reflexivity | ].
  intros reqs.
  destruct (serve_run reqs
              {| memoryKey := "chat_history"; returnMessages := true; turns := [] |})
    as (_ & _ & _ & Hkey & _).
  unfold Index.loadMemoryVariables. cbn [Index.lookup_key]. rewrite Hkey. reflexivity.
Qed.

Lemma bootstrap_memory_feeds_history_witness :
  exists mem,
    Index.memory (store (Index.main Samples.full_env Samples.no_failure Samples.port_free Index.no_globals))
    = Some mem /\ turns mem = [].
Proof.
  destruct (bootstrap_memory_feeds_history Samples.full_env Samples.no_failure
              Samples.port_free Index.no_globals eq_refl) as (mem & Hmem & Hempty & _).
  exists mem. split; [ exact Hmem | exact Hempty ].
Defined.

(** ** What the diagnostics show *)

(** X15: with an incomplete configuration, everything the two programs do and
    print depends only on which of the three settings are there and
    non-empty, never on their values: two environments with the same settings
    present give the same events, line for line. *)
Theorem diagnostics_show_presence_only
    (env1 env2 : gmap string string) (fails1 fails2 : Construction -> option JsError)
    (listens1 listens2 : JsValue -> option JsError)
    (g : Index.Globals) (w1 w2 : ProcessPolicy.World) :
  (forall key, key ∈ required_keys ->
     truthy (env_get env1 key) = truthy (env_get env2 key)) ->
  config_complete env1 = false ->
  events (Index.main env1 fails1 listens1 g) = events (Index.main env2 fails2 listens2 g) /\
  events (ProcessPolicy.script env1 w1 tt) = events (ProcessPolicy.script env2 w2 tt).
Proof.
  intros Hsame Hincomplete.
  assert (Hg : truthy (env_get env1 "GOOGLE_API_KEY") = truthy (env_get env2 "GOOGLE_API_KEY"))
    by (apply Hsame; unfold required_keys; set_solver).
  assert (Hu : truthy (env_get env1 "SUPABASE_URL") = truthy (env_get env2 "SUPABASE_URL"))
    by (apply Hsame; unfold required_keys; set_solver).
  assert (Hk : truthy (env_get env1 "SUPABASE_SERVICE_ROLE_KEY")
               = truthy (env_get env2 "SUPABASE_SERVICE_ROLE_KEY"))
    by (apply Hsame; unfold required_keys; set_solver).
  assert (Hincomplete2 : config_complete env2 = false).
  { revert Hincomplete. unfold config_complete, required_keys. cbn [forallb].
    rewrite Hg, Hu, Hk. trivial. }
  unfold Index.main, ProcessPolicy.script, ProcessPolicy.processAndEmbedPolicy. cbv zeta.
  rewrite !guard_is_incomplete, Hincomplete, Hincomplete2.
  unfold loaded. rewrite Hg, Hu, Hk. split; reflexivity.
Qed.

Lemma diagnostics_show_presence_only_witness :
  events (Index.main Samples.env_without_url Samples.no_failure Samples.port_free Index.no_globals)
  = events (Index.main (<["GOOGLE_API_KEY" := "another-key"]> Samples.env_without_url)
              Samples.no_failure Samples.port_free Index.no_globals).
Proof.
  apply (diagnostics_show_presence_only
           Samples.env_without_url (<["GOOGLE_API_KEY" := "another-key"]> Samples.env_without_url)
           Samples.no_failure Samples.no_failure Samples.port_free Samples.port_free
           Index.no_globals (Samples.world (Ok tt)) (Samples.world (Ok tt))).
  - intros key Hkey. unfold required_keys in Hkey. rewrite !elem_of_cons in Hkey.
    destruct Hkey as [-> | [-> | [-> | Hkey]]]; [ | | | inversion Hkey ]; vm_compute; reflexivity.
  - vm_compute. reflexivity.
Defined.

(** X16: the handler tests that there is a question, not that it is text.  A
    question that is [true], an array or an object, even an empty one, is not
    answered with 400: it is handed to the retriever as it came, as the one
    query of the request. *)
Theorem question_need_not_be_text
    (svc : Index.Services) (rest : list (string * JsValue)) (m : BufferMemory) (v : JsValue) :
  (v = JBool true \/ (exists items, v = JArray items) \/ (exists fields, v = JObject fields)) ->
  Index.retriever_inputs (events (Index.post_query svc (("question", v) :: rest) m)) = [v] /\
  forall response,
    outcome (Index.post_query svc (("question", v) :: rest) m) = Returned response ->
    Index.status response <> 400%Z.
Proof.
  intros Hshape.
  assert (Htruthy : truthy (get_property "question" (("question", v) :: rest)) = true).
  { cbn. destruct Hshape as [-> | [[items ->] | [fields ->]]]; reflexivity. }
  assert (Hasked : get_property "question" (("question", v) :: rest) = v) by reflexivity.
  destruct (Index.retriever_invoke svc (get_property "question" (("question", v) :: rest)))
    as [docs | e] eqn:Hretr.
  - destruct (format_chatPrompt_total svc
                {| Index.context := docs;
                   Index.question :=
                     JObject [("question", get_property "question" (("question", v) :: rest))];
                   Index.chat_history :=
                     Index.lookup_key "chat_history" (Index.loadMemoryVariables m) |})
      as [prompt Hformat].
    destruct (Index.llm_invoke svc prompt) as [text | e] eqn:Hllm.
    + rewrite (post_query_answered svc _ m docs prompt text Htruthy Hretr Hformat Hllm).
      split; [ reflexivity | ]. intros response Hout. injection Hout as <-. discriminate.
    + rewrite (post_query_model_failed svc _ m docs prompt e Htruthy Hretr Hformat Hllm).
      split; [ reflexivity | ]. intros response Hout. injection Hout as <-. discriminate.
  - rewrite (post_query_retrieval_failed svc _ m e Htruthy Hretr).
    split; [ reflexivity | ]. intros response Hout. injection Hout as <-. discriminate.
Qed.

Lemma question_need_not_be_text_witness :
  Index.retriever_inputs
    (events (Index.post_query (Samples.echo (Ok [Samples.policy_page]) Ok)
               [("question", JArray [])] Samples.fresh_memory))
  = [JArray []].
Proof.
  apply (question_need_not_be_text (Samples.echo (Ok [Samples.policy_page]) Ok) []
           Samples.fresh_memory (JArray [])).
  right. left. exists []. reflexivity.
Defined.

(** ** The query handler from the request body *)

(** X10: [POST /query] from [req.body] as the middleware left it.  When the
    body is [undefined] or [null] the handler throws before anything else: no
    response is produced, nothing is printed or called, and the memory is
    untouched.  For every other body it answers with status 200, 400 or 500
    and neither throws nor ends the process; the status is 400 exactly when
    the question fails the test [!question]; with 200 the body of the
    response carries the text stored as the answer of the new round; with any
    other status the memory is the one from before. *)
Theorem query_handler_answers
    (svc : Index.Services) (req_body : JsValue) (m : BufferMemory) :
  ((req_body = JUndefined \/ req_body = JNull) ->
   (exists error, outcome (Index.query_handler svc req_body m) = Thrown error) /\
   store (Index.query_handler svc req_body m) = m /\
   events (Index.query_handler svc req_body m) = []) /\
  (req_body <> JUndefined -> req_body <> JNull ->
   exists response,
     outcome (Index.query_handler svc req_body m) = Returned response /\
     (Index.status response = 200%Z \/ Index.status response = 400%Z \/
      Index.status response = 500%Z) /\
     (Index.status response = 400%Z <-> truthy (Index.property "question" req_body) = false) /\
     (Index.status response = 200%Z ->
      exists text,
        Index.payload response = Index.SendJson (JObject [("answer", JString text)]) /\
        turns (store (Index.query_handler svc req_body m))
        = (turns m ++ [{| input := Index.property "question" req_body; output := text |}])%list) /\
     (Index.status response <> 200%Z -> store (Index.query_handler svc req_body m) = m)).
Proof.
  split.
  - intros [-> | ->]; (split; [ eexists; reflexivity | split; reflexivity ]).
  - intros Hdefined Hnot_null.
    destruct req_body as [| | b | x | s | items | fields];
      try contradiction; cbn [Index.query_handler Index.property];
      try apply (post_query_answers svc [] m).
    apply (post_query_answers svc fields m).
Qed.

Lemma query_handler_answers_witness :
  (exists error,
     outcome (Index.query_handler (Samples.echo (Ok [Samples.policy_page]) Ok) JUndefined
                Samples.used_memory) = Thrown error) /\
  exists response,
    outcome (Index.query_handler (Samples.echo (Ok [Samples.policy_page]) Ok) (JObject [])
               Samples.used_memory) = Returned response /\
    Index.status response = 400%Z.
Proof.
  destruct (query_handler_answers (Samples.echo (Ok [Samples.policy_page]) Ok) JUndefined
              Samples.used_memory) as [Hthrows _].
  destruct (query_handler_answers (Samples.echo (Ok [Samples.policy_page]) Ok) (JObject [])
              Samples.used_memory) as [_ Hanswers].
  split.
  - apply Hthrows. left. reflexivity.
  - destruct Hanswers as (response & Hout & _ & Hrejected & _); [ discriminate | discriminate | ].
    exists response. split; [ exact Hout | ]. apply Hrejected. reflexivity.
Defined.

(** ** A document, page by page *)

Lemma splitDocuments_app (cfg : SplitterConfig) (docs1 docs2 : list Document) :
  Chunker.splitDocuments cfg (docs1 ++ docs2)
  = (Chunker.splitDocuments cfg docs1 ++ Chunker.splitDocuments cfg docs2)%list.
Proof. unfold Chunker.splitDocuments. apply flat_map_app. Qed.

Lemma splitDocuments_cons (cfg : SplitterConfig) (d : Document) (docs : list Document) :
  Chunker.splitDocuments cfg (d :: docs)
  = (map (fun c => {| pageContent := c; page := page d |})
         (Chunker.splitText (chunkSize cfg) (chunkOverlap cfg) (pageContent d))
     ++ Chunker.splitDocuments cfg docs)%list.
Proof. reflexivity. Qed.

(** C7 (amended): a document is chunked page by page, with the window of 1000
    and the overlap of 200 the script configures.  The chunks of a page stand
    together in the output, in order, under the index of their page.  A page
    of [L] units gives [n] chunks with [n <= ceil (L / 800) <= n + 1], so a
    document of [P] pages gives [N] chunks with
    [N <= sum of ceil (L / 800) over its pages <= N + P].  Two neighbouring
    chunks of the same page are neighbours in the output, and the last 200
    units of the first are the first 200 units of the second. *)
Theorem chunks_page_by_page (docs : list Document) :
  (length (Chunker.splitDocuments ProcessPolicy.splitter docs)
   <= sum_list (map (fun d => Chunker.ceil_div (length (pageContent d))
                                (chunkSize ProcessPolicy.splitter
                                 - chunkOverlap ProcessPolicy.splitter)) docs)
   <= length (Chunker.splitDocuments ProcessPolicy.splitter docs) + length docs) /\
  (forall before d after,
     docs = (before ++ d :: after)%list ->
     Chunker.splitDocuments ProcessPolicy.splitter docs
     = (Chunker.splitDocuments ProcessPolicy.splitter before
        ++ map (fun c => {| pageContent := c; page := page d |})
               (Chunker.splitText (chunkSize ProcessPolicy.splitter)
                  (chunkOverlap ProcessPolicy.splitter) (pageContent d))
        ++ Chunker.splitDocuments ProcessPolicy.splitter after)%list /\
     (length (Chunker.splitText (chunkSize ProcessPolicy.splitter)
                (chunkOverlap ProcessPolicy.splitter) (pageContent d))
      <= Chunker.ceil_div (length (pageContent d))
           (chunkSize ProcessPolicy.splitter - chunkOverlap ProcessPolicy.splitter)
      <= length (Chunker.splitText (chunkSize ProcessPolicy.splitter)
                   (chunkOverlap ProcessPolicy.splitter) (pageContent d)) + 1) /\
     (forall i c1 c2,
        Chunker.splitText (chunkSize ProcessPolicy.splitter)
          (chunkOverlap ProcessPolicy.splitter) (pageContent d) !! i = Some c1 ->
        Chunker.splitText (chunkSize ProcessPolicy.splitter)
          (chunkOverlap ProcessPolicy.splitter) (pageContent d) !! S i = Some c2 ->
        Chunker.splitDocuments ProcessPolicy.splitter docs
          !! (length (Chunker.splitDocuments ProcessPolicy.splitter before) + i)
        = Some {| pageContent := c1; page := page d |} /\
        Chunker.splitDocuments ProcessPolicy.splitter docs
          !! (length (Chunker.splitDocuments ProcessPolicy.splitter before) + S i)
        = Some {| pageContent := c2; page := page d |} /\
        drop (length c1 - chunkOverlap ProcessPolicy.splitter) c1
        = take (chunkOverlap ProcessPolicy.splitter) c2 /\
        length (take (chunkOverlap ProcessPolicy.splitter) c2)
        = chunkOverlap ProcessPolicy.splitter)).
Proof.
  split.
  - induction docs as [| d docs IH]; [ cbn; lia | ].
    rewrite splitDocuments_cons, length_app, length_map.
    cbn [map length].
    assert (Hsum : forall x l, sum_list (x :: l) = x + sum_list l) by reflexivity.
    rewrite Hsum.
    destruct (chunk_count_and_overlap (pageContent d)) as [Hpage _].
    lia.
  - intros before d after ->.
    split; [ rewrite splitDocuments_app, splitDocuments_cons; reflexivity | ].
    destruct (chunk_count_and_overlap (pageContent d)) as [Hpage Hshare].
    split; [ exact Hpage | ].
    intros i c1 c2 H1 H2.
    rewrite splitDocuments_app, splitDocuments_cons.
    split; [ | split; [ | apply (Hshare i c1 c2 H1 H2) ] ].
    + rewrite lookup_app_r by lia.
      replace (length _ + i - length _) with i by lia.
      rewrite lookup_app_l by (rewrite length_map; apply lookup_lt_Some in H1; exact H1).
      rewrite list_lookup_fmap, H1. reflexivity.
    + rewrite lookup_app_r by lia.
      replace (length _ + S i - length _) with (S i) by lia.
      rewrite lookup_app_l by (rewrite length_map; apply lookup_lt_Some in H2; exact H2).
      rewrite list_lookup_fmap, H2. reflexivity.
Qed.

Lemma chunks_page_by_page_witness :
  Chunker.splitDocuments ProcessPolicy.splitter SamplePages.two_long_pages !! 2
  = Some {| pageContent := repeat "b"%char 1000; page := 1 |} /\
  Chunker.splitDocuments ProcessPolicy.splitter SamplePages.two_long_pages !! 3
  = Some {| pageContent := repeat "b"%char 700; page := 1 |} /\
  drop (length (repeat "b"%char 1000) - 200) (repeat "b"%char 1000)
  = take 200 (repeat "b"%char 700).
Proof.
  destruct (chunks_page_by_page SamplePages.two_long_pages) as [_ Hpages].
  destruct (Hpages [SamplePages.page_of "a" 1500 0] (SamplePages.page_of "b" 1500 1) [] eq_refl)
    as (_ & _ & Hshare).
  destruct (Hshare 0 (repeat "b"%char 1000) (repeat "b"%char 700)) as (H1 & H2 & H3 & _).
  - vm_compute. reflexivity.
  - vm_compute. reflexivity.
  - split; [ exact H1 | split; [ exact H2 | exact H3 ] ].
Defined.

(** C7 as stated fails on documents of several pages.  Ten pages of 100 units
    make a document of 1000 units and ten chunks, far from ceil (1000 / 800)
    = 2; and of two pages of 1500 units, the last chunk of the first page and
    the first chunk of the second are neighbours that share nothing: the last
    200 units of the one are not the first 200 units of the other. *)
Lemma chunking_is_not_across_pages :
  (document_length SamplePages.ten_short_pages = 1000 /\
   length (Chunker.splitDocuments ProcessPolicy.splitter SamplePages.ten_short_pages) = 10 /\
   Chunker.ceil_div (document_length SamplePages.ten_short_pages)
     (chunkSize ProcessPolicy.splitter - chunkOverlap ProcessPolicy.splitter) = 2 /\
   ~ (length (Chunker.splitDocuments ProcessPolicy.splitter SamplePages.ten_short_pages)
      <= Chunker.ceil_div (document_length SamplePages.ten_short_pages)
           (chunkSize ProcessPolicy.splitter - chunkOverlap ProcessPolicy.splitter))) /\
  (exists c1 c2,
     Chunker.splitDocuments ProcessPolicy.splitter SamplePages.two_long_pages !! 1 = Some c1 /\
     Chunker.splitDocuments ProcessPolicy.splitter SamplePages.two_long_pages !! 2 = Some c2 /\
     drop (length (pageContent c1) - chunkOverlap ProcessPolicy.splitter) (pageContent c1)
     <> take (chunkOverlap ProcessPolicy.splitter) (pageContent c2)).
Proof.
  split.
  - assert (Hlen : document_length SamplePages.ten_short_pages = 1000)
      by (vm_compute; reflexivity).
    assert (Hcount : length (Chunker.splitDocuments ProcessPolicy.splitter
                               SamplePages.ten_short_pages) = 10)
      by (vm_compute; reflexivity).
    assert (Hceil : Chunker.ceil_div (document_length SamplePages.ten_short_pages)
                      (chunkSize ProcessPolicy.splitter - chunkOverlap ProcessPolicy.splitter)
                    = 2)
      by (vm_compute; reflexivity).
    split; [ exact Hlen | ]. split; [ exact Hcount | ]. split; [ exact Hceil | ].
    rewrite Hcount, Hceil. lia.
  - exists {| pageContent := repeat "a"%char 700; page := 0 |},
           {| pageContent := repeat "b"%char 1000; page := 1 |}.
    split; [ vm_compute; reflexivity | ]. split; [ vm_compute; reflexivity | ].
    vm_compute. discriminate.
Qed.
